(** * BrAin trip planner: a shallow embedding of the backend services

    The backend manipulates dynamically typed Python data (the dictionaries
    produced by [json.loads], request dictionaries, pydantic records).  The
    embedding keeps that shape: a [value] type for Python data, a [result]
    type for "returns or raises", and one Rocq function per source function,
    each named after the function it embeds.

    Numbers.  Python [int] is [Z].  Python [float] is modelled by the exact
    rationals [Qc]: rounding, infinities and NaN are not represented, so the
    arithmetic statements below are statements about exact arithmetic.

    Dictionaries.  Python dictionaries keep insertion order; they are
    association lists whose keys are pairwise distinct (the representation
    invariant of every dictionary built by the code or by [json.loads]). *)

From Stdlib Require Import ZArith QArith Qcanon Qround List String Ascii Bool Lia.
From Stdlib Require Import DecimalString.
Import ListNotations.
Local Open Scope string_scope.
Local Open Scope Z_scope.
Set Warnings "-register-all".


(* ------------------------------------------------------------------ *)
(** ** Python values, exceptions and the primitive operations used *)

Module Py.

Inductive exn : Type :=
| KeyError
| TypeError
| ValueError
| IndexError
| AttributeError
| ZeroDivisionError
| JSONDecodeError
| RetryError
| ExternalError (msg : string).

Inductive result (A : Type) : Type :=
| Ok (a : A)
| Raise (e : exn).
Arguments Ok {A} a.
Arguments Raise {A} e.

Definition bind {A B : Type} (m : result A) (k : A -> result B) : result B :=
  match m with
  | Ok a => k a
  | Raise e => Raise e
  end.

Notation "x <- m ;; k" := (bind m (fun x => k))
  (at level 61, m at next level, right associativity).

Definition is_ok {A : Type} (m : result A) : bool :=
  match m with Ok _ => true | Raise _ => false end.

(** [try: body except Exception as e: handler e]. *)
Definition try_except {A : Type} (body : result A) (handler : exn -> result A)
  : result A :=
  match body with
  | Ok a => Ok a
  | Raise e => handler e
  end.

Inductive value : Type :=
| VNone
| VBool (b : bool)
| VInt (z : Z)
| VFloat (q : Qc)
| VStr (s : string)
| VDate (ordinal : Z)
| VList (items : list value)
| VDict (entries : list (string * value)).

Definition dict : Type := list (string * value).

(** Rational literals. *)
Definition qz (z : Z) : Qc := Q2Qc (inject_Z z).
Definition qfrac (n : Z) (d : positive) : Qc := Q2Qc (n # d).

Definition Qcgtb (x y : Qc) : bool :=
  match (x ?= y)%Qc with Gt => true | _ => false end.

Definition Qceqb (x y : Qc) : bool :=
  match (x ?= y)%Qc with Eq => true | _ => false end.

(** *** Dictionary operations *)

Fixpoint dict_get (d : dict) (k : string) : option value :=
  match d with
  | [] => None
  | (k', v) :: d' => if String.eqb k k' then Some v else dict_get d' k
  end.

(** [k in d]. *)
Definition dict_has (d : dict) (k : string) : bool :=
  match dict_get d k with Some _ => true | None => false end.

(** [d.get(k, default)]. *)
Definition dict_get_default (d : dict) (k : string) (default : value) : value :=
  match dict_get d k with Some v => v | None => default end.

(** [d[k]]. *)
Definition dict_getitem (d : dict) (k : string) : result value :=
  match dict_get d k with Some v => Ok v | None => Raise KeyError end.

(** [d[k] = v]: an existing key keeps its position, a new key goes last. *)
Fixpoint dict_set (d : dict) (k : string) (v : value) : dict :=
  match d with
  | [] => [(k, v)]
  | (k', v') :: d' =>
      if String.eqb k k' then (k', v) :: d' else (k', v') :: dict_set d' k v
  end.

Definition dict_keys (d : dict) : list string := map fst d.

(** *** Numbers *)

(** The numeric value of an [int], [float] or [bool] ([bool] is a subclass
    of [int]); [None] for every other kind of value. *)
Definition num_of (v : value) : option Qc :=
  match v with
  | VInt z => Some (qz z)
  | VFloat q => Some q
  | VBool b => Some (if b then qz 1 else qz 0)
  | _ => None
  end.

(** [isinstance(v, (int, float))]. *)
Definition is_number (v : value) : bool :=
  match num_of v with Some _ => true | None => false end.

(** [a > b].  Numbers compare with numbers, strings with strings and dates
    with dates; every other pairing modelled here raises [TypeError].  (Two
    lists also compare in Python; that pairing is not modelled, and every
    statement below compares against a numeric budget.) *)
Definition py_gt (a b : value) : result bool :=
  match num_of a, num_of b with
  | Some x, Some y => Ok (Qcgtb x y)
  | _, _ =>
      match a, b with
      | VStr s, VStr t =>
          Ok (match String.compare s t with Gt => true | _ => false end)
      | VDate d, VDate e => Ok (e <? d)
      | _, _ => Raise TypeError
      end
  end.

(** [a / b] on numbers: true division, always a [float]. *)
Definition py_div (a b : value) : result Qc :=
  match num_of a, num_of b with
  | Some x, Some y =>
      if Qceqb y (qz 0) then Raise ZeroDivisionError else Ok (x / y)%Qc
  | _, _ => Raise TypeError
  end.

(** [v * r] for a [float] [r]: numbers scale, everything else raises
    [TypeError] (a sequence cannot be multiplied by a [float]). *)
Definition py_mul_float (v : value) (r : Qc) : result value :=
  match num_of v with
  | Some x => Ok (VFloat (x * r)%Qc)
  | None => Raise TypeError
  end.

(** Truth value of a Python object. *)
Definition py_truthy (v : value) : bool :=
  match v with
  | VNone => false
  | VBool b => b
  | VInt z => negb (z =? 0)
  | VFloat q => negb (Qceqb q (qz 0))
  | VStr s => negb (String.eqb s "")
  | VDate _ => true
  | VList l => match l with [] => false | _ => true end
  | VDict d => match d with [] => false | _ => true end
  end.

(** *** Strings *)

(** [needle in haystack] for two strings. *)
Fixpoint str_contains (needle haystack : string) : bool :=
  if String.prefix needle haystack then true
  else match haystack with
       | EmptyString => false
       | String _ rest => str_contains needle rest
       end.

(** [s.find(c)] for a one-character needle: first index, or [-1]. *)
Fixpoint str_find (c : ascii) (s : string) : Z :=
  match s with
  | EmptyString => -1
  | String a rest =>
      if Ascii.eqb a c then 0
      else let i := str_find c rest in if i <? 0 then -1 else i + 1
  end.

(** [s.rfind(c)]: last index, or [-1]. *)
Fixpoint str_rfind (c : ascii) (s : string) : Z :=
  match s with
  | EmptyString => -1
  | String a rest =>
      let i := str_rfind c rest in
      if 0 <=? i then i + 1 else if Ascii.eqb a c then 0 else -1
  end.

(** [s[i:j]] for non-negative [i] and [j]. *)
Definition str_slice (s : string) (i j : Z) : string :=
  if j <=? i then ""
  else String.substring (Z.to_nat i) (Z.to_nat (j - i)) s.

Definition chars_of (s : string) : list value :=
  map (fun a => VStr (String a EmptyString)) (list_ascii_of_string s).

(** *** Protocols on arbitrary values *)

Definition is_str (v : value) (s : string) : bool :=
  match v with VStr t => String.eqb s t | _ => false end.

(** [k in v] for a string [k]: key test on a dictionary, substring test on a
    string, membership on a list; other values are not containers. *)
Definition py_contains (k : string) (v : value) : result bool :=
  match v with
  | VDict d => Ok (dict_has d k)
  | VStr s => Ok (str_contains k s)
  | VList l => Ok (existsb (fun x => is_str x k) l)
  | _ => Raise TypeError
  end.

(** [v[k]] for a string [k]. *)
Definition py_getitem (v : value) (k : string) : result value :=
  match v with
  | VDict d => dict_getitem d k
  | _ => Raise TypeError
  end.

(** [v[k] = x] for a string [k]. *)
Definition py_setitem (v : value) (k : string) (x : value) : result value :=
  match v with
  | VDict d => Ok (VDict (dict_set d k x))
  | _ => Raise TypeError
  end.

(** [v.get(k, default)]: only dictionaries have [get]. *)
Definition py_get (v : value) (k : string) (default : value) : result value :=
  match v with
  | VDict d => Ok (dict_get_default d k default)
  | _ => Raise AttributeError
  end.

(** [for x in v]: the items a loop over [v] visits. *)
Definition py_iter (v : value) : result (list value) :=
  match v with
  | VList l => Ok l
  | VDict d => Ok (map VStr (dict_keys d))
  | VStr s => Ok (chars_of s)
  | _ => Raise TypeError
  end.

(** Apply [f] to the items in order; the first exception ends the loop. *)
Fixpoint map_result {A B : Type} (f : A -> result B) (l : list A)
  : result (list B) :=
  match l with
  | [] => Ok []
  | x :: rest => y <- f x ;; ys <- map_result f rest ;; Ok (y :: ys)
  end.

(** The items of [v] when all of them are strings, [TypeError] otherwise. *)
Definition strings_of (v : value) : result (list string) :=
  items <- py_iter v ;;
  map_result (fun x => match x with VStr s => Ok s | _ => Raise TypeError end)
             items.

(** [sep.join(v)]. *)
Definition py_join (sep : string) (v : value) : result string :=
  strs <- strings_of v ;;
  Ok (String.concat sep strs).

Fixpoint insert_sorted (s : string) (l : list string) : list string :=
  match l with
  | [] => [s]
  | t :: rest =>
      if String.leb s t then s :: l else t :: insert_sorted s rest
  end.

(** [sep.join(sorted(v))]: sorting or joining raises [TypeError] unless
    every item is a string. *)
Definition py_join_sorted (sep : string) (v : value) : result string :=
  strs <- strings_of v ;;
  Ok (String.concat sep (fold_right insert_sorted [] strs)).

End Py.
Export Py.

(* ------------------------------------------------------------------ *)
(** ** In-place updates that may be interrupted by an exception

    The services mutate the parsed itinerary in place inside a [try] block.
    When a statement raises, the mutations made so far stay.  An update
    therefore returns the object as it stands together with the exception
    that interrupted it, if any. *)

Module Mut.

Definition upd (A : Type) : Type := (A * option exn)%type.

Definition done {A : Type} (a : A) : upd A := (a, None).
Definition interrupted {A : Type} (a : A) (e : exn) : upd A := (a, Some e).

(** Run [f], then [g] on the updated object unless [f] raised. *)
Definition and_then {A : Type} (f g : A -> upd A) (a : A) : upd A :=
  let (a1, e) := f a in
  match e with
  | Some _ => (a1, e)
  | None => g a1
  end.

(** [for x in l: f(x)] over the items of a list object, mutating them. *)
Fixpoint each (f : value -> upd value) (l : list value) : upd (list value) :=
  match l with
  | [] => done []
  | x :: rest =>
      let (x', e) := f x in
      match e with
      | Some _ => (x' :: rest, e)
      | None => let (rest', e') := each f rest in (x' :: rest', e')
      end
  end.

(** [for x in container: f(x)].  The items of a list are mutated in place.
    A loop over a dictionary or a string visits fresh strings, so only an
    exception can come out of it. *)
Definition for_each (f : value -> upd value) (container : value) : upd value :=
  match container with
  | VList l => let (l', e) := each f l in (VList l', e)
  | _ =>
      match py_iter container with
      | Raise e => interrupted container e
      | Ok items => (container, snd (each f items))
      end
  end.

(** Store [x] back under [k] when [obj] is a dictionary that has [k]. *)
Definition store_back (obj : value) (k : string) (x : value) : value :=
  match obj with
  | VDict d => if dict_has d k then VDict (dict_set d k x) else obj
  | _ => obj
  end.

End Mut.

(* ------------------------------------------------------------------ *)
(** ** tenacity's [retry] decorator *)

Module Tenacity.

(** [wait_exponential(multiplier, min, max)]: the pause after attempt
    number [attempt_number] failed. *)
Definition wait_exponential (multiplier min max : Z) (attempt_number : nat) : Z :=
  Z.max (Z.max 0 min)
        (Z.min (multiplier * 2 ^ (Z.of_nat attempt_number - 1)) max).

Inductive event : Type :=
| Attempt (attempt_number : nat)
| Sleep (seconds : Z).

(** The calls a decorated function makes to its body: the body of attempt
    [n] is [body n] (the outside world may answer differently each time).
    A normal return ends the loop.  An exception ends it with [RetryError]
    when no further attempt is allowed, and otherwise sleeps and tries
    again. *)
Fixpoint retry_from {A : Type} (wait : nat -> Z) (further attempt_number : nat)
  (body : nat -> result A) : list event * result A :=
  match body attempt_number with
  | Ok a => ([Attempt attempt_number], Ok a)
  | Raise e =>
      match further with
      | O => ([Attempt attempt_number], Raise RetryError)
      | S further' =>
          let (trace, r) := retry_from wait further' (S attempt_number) body in
          (Attempt attempt_number :: Sleep (wait attempt_number) :: trace, r)
      end
  end.

(** [@retry(stop=stop_after_attempt(limit), wait=wait)]: the loop stops
    after the attempt whose number reaches [limit]. *)
Definition retry {A : Type} (limit : nat) (wait : nat -> Z)
  (body : nat -> result A) : list event * result A :=
  retry_from wait (limit - 1) 1%nat body.




End Tenacity.

(* ------------------------------------------------------------------ *)
(** ** The outside world of one attempt

    What the services obtain from libraries, settings and remote systems:
    the JSON parser, the clock, string formatting, the cache, the generative
    model and the maps client.  The last three fields are results of remote
    lookups and of the prompt template, which the properties below do not
    look into. *)

Record Env : Type := {
  (** [json.loads]; [None] stands for [json.JSONDecodeError]. *)
  json_loads : string -> option value;
  (** [date.today()] as a day ordinal, and [str] of a date. *)
  date_today : Z;
  date_isoformat : Z -> string;
  (** [datetime.utcnow().isoformat()] and [datetime.now().isoformat()]. *)
  utcnow_isoformat : string;
  now_isoformat : string;
  (** [str(v)] as used in f-strings. *)
  str_of : value -> string;
  (** [settings.gemini_model]. *)
  gemini_model : string;
  (** [_get_cached_response]: it swallows its own exceptions. *)
  cached_response : string -> option value;
  (** The prompt template of [_create_enhanced_prompt], filled in once the
      values it interpolates are computed. *)
  render_prompt : dict -> result string;
  (** [self.model.generate_content(prompt).text]. *)
  generate_content : string -> result string;
  (** The [try] block of [MapsService.get_place_details]. *)
  place_details_lookup : string -> option string -> result value;
  (** [MapsService.calculate_distance_matrix]. *)
  distance_matrix : list value -> list value -> result value
}.

(* ------------------------------------------------------------------ *)
(** ** app/services/ai_service.py *)

Module AIService.
Import Mut.

(** [_get_default_value]: [defaults.get(field, None)]. *)
Definition _get_default_value (field : string) : value :=
  dict_get_default
    [ ("daily_itineraries", VList []);
      ("cost_breakdown",
        VDict [ ("accommodation", VInt 0); ("meals", VInt 0);
                ("activities", VInt 0); ("transport", VInt 0);
                ("miscellaneous", VInt 0) ]);
      ("total_estimated_cost", VInt 0);
      ("local_tips", VList []);
      ("emergency_contacts",
        VDict [ ("police", VStr "100"); ("ambulance", VStr "108");
                ("tourist_helpline", VStr "1363") ]) ]
    field VNone.

(** [if k in obj: obj[k] *= ratio]. *)
Definition scale_if_present (k : string) (ratio : Qc) (obj : value) : upd value :=
  match py_contains k obj with
  | Raise e => interrupted obj e
  | Ok false => done obj
  | Ok true =>
      match (v <- py_getitem obj k ;;
             v' <- py_mul_float v ratio ;;
             py_setitem obj k v') with
      | Ok obj' => done obj'
      | Raise e => interrupted obj e
      end
  end.

(** One entry of the loop over [cost_breakdown] when it is a dictionary:
    [if isinstance(cb[category], (int, float)): cb[category] *= ratio]. *)
Definition scale_entry (ratio : Qc) (kv : string * value) : string * value :=
  match num_of (snd kv) with
  | Some x => (fst kv, VFloat (x * ratio)%Qc)
  | None => kv
  end.

(** A list index: an [int] or [bool], negative values counting from the
    end. *)
Definition list_index (len : nat) (category : value) : result nat :=
  match category with
  | VInt _ | VBool _ =>
      let z := match category with
               | VInt z => z
               | VBool true => 1
               | _ => 0
               end in
      let i := if z <? 0 then z + Z.of_nat len else z in
      if (0 <=? i) && (i <? Z.of_nat len) then Ok (Z.to_nat i)
      else Raise IndexError
  | _ => Raise TypeError
  end.

Fixpoint list_update (l : list value) (i : nat) (x : value) : list value :=
  match l, i with
  | [], _ => []
  | _ :: rest, O => x :: rest
  | y :: rest, S i' => y :: list_update rest i' x
  end.

(** The same loop when [cost_breakdown] is a list: the items visited are
    used as indices into the list itself. *)
Fixpoint scale_by_index (ratio : Qc) (fuel position : nat) (l : list value)
  : upd (list value) :=
  match fuel with
  | O => done l
  | S fuel' =>
      match nth_error l position with
      | None => done l
      | Some category =>
          match list_index (List.length l) category with
          | Raise e => interrupted l e
          | Ok i =>
              let l' := match nth_error l i with
                        | Some v =>
                            match num_of v with
                            | Some x => list_update l i (VFloat (x * ratio)%Qc)
                            | None => l
                            end
                        | None => l
                        end in
              scale_by_index ratio fuel' (S position) l'
          end
      end
  end.

(** [for category in cb: if isinstance(cb[category], (int, float)):
    cb[category] *= ratio]. *)
Definition adjust_cost_breakdown (ratio : Qc) (cb : value) : upd value :=
  match cb with
  | VDict d => done (VDict (map (scale_entry ratio) d))
  | VList l =>
      let (l', e) := scale_by_index ratio (List.length l) 0%nat l in (VList l', e)
  | VStr s => if String.eqb s "" then done cb else interrupted cb TypeError
  | _ => interrupted cb TypeError
  end.

Definition adjust_activity (ratio : Qc) : value -> upd value :=
  and_then (scale_if_present "cost_per_person" ratio)
           (scale_if_present "total_cost" ratio).

(** The body of [for day in ...]. *)
Definition adjust_day (ratio : Qc) : value -> upd value :=
  and_then (scale_if_present "day_total_cost" ratio)
    (fun day =>
       match py_get day "activities" (VList []) with
       | Raise e => interrupted day e
       | Ok activities =>
           let (activities', e) := for_each (adjust_activity ratio) activities in
           (store_back day "activities" activities', e)
       end).

(** [_adjust_for_budget].  The whole body is inside [try]; the handler
    returns the itinerary as it stands. *)
Definition _adjust_for_budget (itinerary : value) (budget : value) : value :=
  match itinerary with
  | VDict it =>
      let current_cost := dict_get_default it "total_estimated_cost" (VInt 0) in
      match py_gt current_cost budget with
      | Ok true =>
          match py_div budget current_cost with
          | Raise _ => itinerary
          | Ok adjustment_ratio =>
              let (it1, e1) :=
                match dict_get it "cost_breakdown" with
                | None => done itinerary
                | Some cb =>
                    let (cb', e) := adjust_cost_breakdown adjustment_ratio cb in
                    (store_back itinerary "cost_breakdown" cb', e)
                end in
              match e1 with
              | Some _ => it1
              | None =>
                  let days :=
                    match it1 with
                    | VDict d => dict_get_default d "daily_itineraries" (VList [])
                    | _ => VList []
                    end in
                  let (days', e2) := for_each (adjust_day adjustment_ratio) days in
                  let it2 := store_back it1 "daily_itineraries" days' in
                  match e2, it2 with
                  | None, VDict d =>
                      VDict (dict_set (dict_set d "total_estimated_cost" budget)
                                      "budget_adjusted" (VBool true))
                  | _, _ => it2
                  end
              end
          end
      | _ => itinerary
      end
  | _ => itinerary
  end.

(** [range(n)]: [n] must be an [int] (or a [bool]). *)
Definition py_range (n : value) : result (list Z) :=
  match n with
  | VInt z => Ok (map Z.of_nat (seq 0 (Z.to_nat z)))
  | VBool b => Ok (if b then [0] else [])
  | _ => Raise TypeError
  end.

(** [str(start + timedelta(days=offset))]: only a date can be shifted. *)
Definition shifted_date (env : Env) (start : value) (offset : Z) : result value :=
  match start with
  | VDate d => Ok (VStr (date_isoformat env (d + offset)))
  | _ => Raise TypeError
  end.

Definition fallback_day (env : Env) (trip_request : dict) (daily_budget : Qc)
  (day : Z) : result value :=
  let start := dict_get_default trip_request "start_date" (VDate (date_today env)) in
  date <- shifted_date env start day ;;
  Ok (VDict
    [ ("day_number", VInt (day + 1));
      ("date", date);
      ("activities", VList
        [ VDict [ ("time_slot", VStr "09:00-12:00");
                  ("activity_name", VStr "Morning Sightseeing");
                  ("description", VStr "Explore popular local attractions");
                  ("duration_hours", VInt 3);
                  ("cost_per_person", VFloat (daily_budget * qfrac 1 5)%Qc);
                  ("category", VStr "sightseeing") ];
          VDict [ ("time_slot", VStr "14:00-17:00");
                  ("activity_name", VStr "Cultural Experience");
                  ("description", VStr "Immerse in local culture and traditions");
                  ("duration_hours", VInt 3);
                  ("cost_per_person", VFloat (daily_budget * qfrac 3 20)%Qc);
                  ("category", VStr "cultural") ] ]);
      ("day_total_cost", VFloat daily_budget) ]).

(** [_create_fallback_itinerary]. *)
Definition _create_fallback_itinerary (env : Env) (trip_request : dict)
  : result value :=
  let duration := dict_get_default trip_request "duration_days" (VInt 3) in
  budget <- dict_getitem trip_request "budget" ;;
  daily_budget <- py_div budget duration ;;
  days <- py_range duration ;;
  daily_itineraries <- map_result (fallback_day env trip_request daily_budget) days ;;
  Ok (VDict
    [ ("daily_itineraries", VList daily_itineraries);
      ("total_estimated_cost", budget);
      ("fallback_mode", VBool true);
      ("message", VStr "This is a basic itinerary. Please refine your preferences for a more detailed plan.") ]).

Definition required_fields : list string :=
  ["daily_itineraries"; "cost_breakdown"; "total_estimated_cost"].

(** [for field in required_fields: if field not in data: data[field] = ...]. *)
Fixpoint fill_required (fields : list string) (data : value) : result value :=
  match fields with
  | [] => Ok data
  | field :: rest =>
      present <- py_contains field data ;;
      data' <- (if present then Ok data
                else py_setitem data field (_get_default_value field)) ;;
      fill_required rest data'
  end.

(** The text handed to [json.loads]: the span from the first opening brace
    to the last closing brace when both exist, the whole text otherwise. *)
Definition json_span (response_text : string) : string :=
  let json_start := str_find "{"%char response_text in
  let json_end := str_rfind "}"%char response_text + 1 in
  if negb (json_start =? -1) && negb (json_end =? 0)
  then str_slice response_text json_start json_end
  else response_text.

(** [_parse_and_validate_response].  Only [json.JSONDecodeError] is caught;
    any other exception leaves the function. *)
Definition _parse_and_validate_response (env : Env) (response_text : string)
  (trip_request : dict) : result value :=
  match json_loads env (json_span response_text) with
  | None => _create_fallback_itinerary env trip_request
  | Some parsed =>
      itinerary_data <- fill_required required_fields parsed ;;
      total <- py_get itinerary_data "total_estimated_cost" (VInt 0) ;;
      budget <- dict_getitem trip_request "budget" ;;
      over <- py_gt total budget ;;
      if over then Ok (_adjust_for_budget itinerary_data budget)
      else Ok itinerary_data
  end.

(** [obj[k] = x] as an interruptible update. *)
Definition set_key (k : string) (x : value) (obj : value) : upd value :=
  match py_setitem obj k x with
  | Ok obj' => done obj'
  | Raise e => interrupted obj e
  end.

(** [s.replace(' ', '_')[:20]]. *)
Definition underscored (s : string) : string :=
  String.substring 0 20
    (string_of_list_ascii
       (map (fun a => if Ascii.eqb a " "%char then "_"%char else a)
            (list_ascii_of_string s))).

(** The body of [for activity in day.get('activities', [])]. *)
Definition enhance_activity (env : Env) (day : value) (activity : value)
  : upd value :=
  match (day_number <- py_getitem day "day_number" ;;
         name <- py_get activity "activity_name" (VStr "") ;;
         match name with
         | VStr s =>
             Ok (VStr ("act_" ++ str_of env day_number ++ "_" ++ underscored s))
         | _ => Raise AttributeError
         end) with
  | Raise e => interrupted activity e
  | Ok activity_id =>
      and_then (set_key "activity_id" activity_id)
        (fun a =>
           match py_get a "booking_required" (VBool false) with
           | Ok bookable => set_key "bookable" bookable a
           | Raise e => interrupted a e
           end)
        activity
  end.

(** [if 'date' not in day: day['date'] = str(start + timedelta(days=n - 1))]. *)
Definition ensure_date (env : Env) (trip_request : dict) (day : value)
  : upd value :=
  match py_contains "date" day with
  | Raise e => interrupted day e
  | Ok true => done day
  | Ok false =>
      let start := dict_get_default trip_request "start_date" (VDate (date_today env)) in
      match (day_number <- py_get day "day_number" (VInt 1) ;;
             match num_of day_number with
             | Some n => shifted_date env start (Qfloor (n - qz 1)%Qc)
             | None => Raise TypeError
             end) with
      | Ok date => set_key "date" date day
      | Raise e => interrupted day e
      end
  end.

Definition enhance_day (env : Env) (trip_request : dict) : value -> upd value :=
  and_then (ensure_date env trip_request)
    (fun day =>
       match py_get day "activities" (VList []) with
       | Raise e => interrupted day e
       | Ok activities =>
           let (activities', e) := for_each (enhance_activity env day) activities in
           (store_back day "activities" activities', e)
       end).

Definition add_metadata (env : Env) (trip_request : dict) : value -> upd value :=
  set_key "metadata"
    (VDict [ ("generated_at", VStr (utcnow_isoformat env));
             ("model_version", VStr (gemini_model env));
             ("request_id", dict_get_default trip_request "request_id" VNone);
             ("user_preferences",
               dict_get_default trip_request "user_preferences" (VDict []));
             ("generation_time_ms", VInt 0) ]).

Definition add_trip_metadata (env : Env) (trip_request : dict) (itinerary : value)
  : upd value :=
  match dict_getitem trip_request "destination" with
  | Raise e => interrupted itinerary e
  | Ok destination =>
      set_key "trip_metadata"
        (VDict [ ("destination", destination);
                 ("start_date",
                   VStr (str_of env (dict_get_default trip_request "start_date" VNone)));
                 ("end_date",
                   VStr (str_of env (dict_get_default trip_request "end_date" VNone)));
                 ("duration_days", dict_get_default trip_request "duration_days" VNone);
                 ("travelers_count",
                   dict_get_default trip_request "travelers_count" VNone);
                 ("themes", dict_get_default trip_request "themes" (VList []));
                 ("created_at", VStr (now_isoformat env)) ])
        itinerary
  end.

Definition enhance_days (env : Env) (trip_request : dict) (itinerary : value)
  : upd value :=
  match py_get itinerary "daily_itineraries" (VList []) with
  | Raise e => interrupted itinerary e
  | Ok days =>
      let (days', e) := for_each (enhance_day env trip_request) days in
      (store_back itinerary "daily_itineraries" days', e)
  end.

(** [_enhance_itinerary_with_context].  The whole body is inside [try]; the
    handler returns the itinerary as it stands. *)
Definition _enhance_itinerary_with_context (env : Env) (itinerary : value)
  (trip_request : dict) : value :=
  fst (and_then (add_metadata env trip_request)
        (and_then (add_trip_metadata env trip_request)
          (and_then (set_key "booking_ready" (VBool true))
            (and_then (set_key "requires_confirmation" (VList []))
              (enhance_days env trip_request))))
        itinerary).

(** [_generate_cache_key]. *)
Definition _generate_cache_key (env : Env) (trip_request : dict) : result string :=
  let destination := dict_get_default trip_request "destination" (VStr "") in
  let budget := str_of env (dict_get_default trip_request "budget" (VInt 0)) in
  let duration := str_of env (dict_get_default trip_request "duration_days" (VInt 0)) in
  themes <- py_join_sorted "," (dict_get_default trip_request "themes" (VList [])) ;;
  match destination with
  | VStr d => Ok ("itinerary:" ++ String.concat "_" [d; budget; duration; themes])
  | _ => Raise TypeError
  end.

(** [_create_enhanced_prompt]: the values computed before the template, then
    the template. *)
Definition _create_enhanced_prompt (env : Env) (trip_request : dict)
  : result string :=
  let duration := dict_get_default trip_request "duration_days" (VInt 3) in
  budget <- dict_getitem trip_request "budget" ;;
  budget_per_day <- py_div budget duration ;;
  let travelers := dict_get_default trip_request "travelers_count" (VInt 1) in
  themes <- py_join ", "
              (dict_get_default trip_request "themes" (VList [VStr "general"])) ;;
  let user_preferences :=
    dict_get_default trip_request "user_preferences" (VDict []) in
  restrictions <- py_get user_preferences "dietary_restrictions"
                    (VList [VStr "None"]) ;;
  dietary <- py_join ", " restrictions ;;
  language <- py_get user_preferences "language" (VStr "English") ;;
  render_prompt env trip_request.

(** The part of the [try] block after a cache miss.  [_cache_response] and
    [log_analytics_event] swallow their own exceptions and return nothing. *)
Definition generate_fresh (env : Env) (trip_request : dict) : result value :=
  prompt <- _create_enhanced_prompt env trip_request ;;
  text <- generate_content env prompt ;;
  itinerary_data <- _parse_and_validate_response env text trip_request ;;
  let enhanced := _enhance_itinerary_with_context env itinerary_data trip_request in
  _ <- py_get enhanced "total_estimated_cost" VNone ;;
  Ok enhanced.

(** The [try] block of [generate_itinerary]. *)
Definition generation_pipeline (env : Env) (trip_request : dict) : result value :=
  cache_key <- _generate_cache_key env trip_request ;;
  match cached_response env cache_key with
  | Some cached =>
      if py_truthy cached then Ok cached else generate_fresh env trip_request
  | None => generate_fresh env trip_request
  end.

(** The body of [generate_itinerary]: one attempt.  The handler logs (the
    logging calls swallow their own exceptions) and builds the fallback. *)
Definition generate_itinerary_attempt (env : Env) (trip_request : dict)
  : result value :=
  try_except (generation_pipeline env trip_request)
             (fun _ => _create_fallback_itinerary env trip_request).

(** [@retry(stop=stop_after_attempt(3),
            wait=wait_exponential(multiplier=1, min=4, max=10))]
    [async def generate_itinerary]: attempt [n] runs in the world [envs n]. *)
Definition generate_itinerary (envs : nat -> Env) (trip_request : dict)
  : list Tenacity.event * result value :=
  Tenacity.retry 3 (Tenacity.wait_exponential 1 4 10)
    (fun n => generate_itinerary_attempt (envs n) trip_request).

End AIService.

(* ------------------------------------------------------------------ *)
(** ** app/services/maps_service.py, payment_service.py, bigquery_service.py:
       how often an external call is attempted *)

Module MapsService.



End MapsService.

(** The external calls of a request, and the wrapper the source puts around
    each of them: the [@retry] decorator appears on [generate_itinerary] and
    on [get_place_details], and on no other function of the services. *)
Module ExternalCalls.

Inductive external_call : Type :=
| ModelInference          (* AIService.generate_itinerary *)
| ModelChat               (* AIService.chat_assistance *)
| ModelOptimize           (* AIService.optimize_itinerary *)
| ModelSuggestions        (* AIService.get_real_time_suggestions *)
| ModelTranslate          (* AIService.translate_content *)
| MapsPlaceDetails        (* MapsService.get_place_details *)
| MapsSearchNearby        (* MapsService.search_nearby *)
| MapsDirections          (* MapsService.get_directions *)
| MapsDistanceMatrix      (* MapsService.calculate_distance_matrix *)
| MapsGeocode             (* MapsService.geocode_address *)
| MapsFindHotels          (* MapsService.find_hotels *)
| MapsFindRestaurants     (* MapsService.find_restaurants *)
| MapsPlacePhotos         (* MapsService.get_place_photos *)
| PaymentProcess          (* PaymentService.process_payment *)
| PaymentSession          (* PaymentService.create_payment_session *)
| PaymentVerify           (* PaymentService.verify_payment *)
| PaymentRefund           (* PaymentService.process_refund *)
| WarehouseAnalyticsEvent (* BigQueryService.log_analytics_event *)
| WarehouseApplicationLog (* BigQueryService.log_application_log *)
| WarehouseInsertTrip     (* BigQueryService.insert_trip *)
| WarehouseUpdateTrip     (* BigQueryService.update_trip *)
| WarehouseInsertBooking  (* BigQueryService.insert_booking *).


Definition is_maps_lookup (c : external_call) : bool :=
  match c with
  | MapsPlaceDetails | MapsSearchNearby | MapsDirections | MapsDistanceMatrix
  | MapsGeocode | MapsFindHotels | MapsFindRestaurants | MapsPlacePhotos => true
  | _ => false
  end.


End ExternalCalls.

(* ------------------------------------------------------------------ *)
(** ** app/models/trip.py and app/utils/validators.py *)

Module Trip.

Definition TripTheme : list string :=
  ["heritage"; "adventure"; "nightlife"; "cultural"; "relaxation"; "family";
   "business"; "romantic"; "foodie"; "shopping"].

Definition TransportMode : list string :=
  ["flight"; "train"; "bus"; "car"; "taxi"; "walk"; "bike"].

Definition AccommodationType : list string :=
  ["hotel"; "hostel"; "resort"; "homestay"; "airbnb"; "villa"].

Record TripRequest : Type := {
  destination : string;
  start_date : Z;
  end_date : Z;
  budget : Qc;
  travelers_count : Z;
  themes : list string;
  accommodation_preference : option string;
  transport_preference : option string;
  dietary_restrictions : option (list string);
  special_requirements : option string;
  language_preference : string;
  include_flights : bool;
  flexible_dates : bool
}.

(** *** Field validation of a pydantic model

    A field is checked for presence and for its declared type, nothing
    else: the class declares no validator.  Values arrive already typed
    (a date as a date); pydantic's parsing of strings into dates or numbers
    is not represented.  A failed check is pydantic's [ValidationError], a
    [ValueError]. *)

Definition member (allowed : list string) (s : string) : bool :=
  existsb (String.eqb s) allowed.

Definition required {A : Type} (check : value -> result A) (data : dict)
  (field : string) : result A :=
  match dict_get data field with
  | Some v => check v
  | None => Raise ValueError
  end.

Definition with_default {A : Type} (check : value -> result A) (default : A)
  (data : dict) (field : string) : result A :=
  match dict_get data field with
  | Some v => check v
  | None => Ok default
  end.

Definition optional {A : Type} (check : value -> result A) (data : dict)
  (field : string) : result (option A) :=
  match dict_get data field with
  | None | Some VNone => Ok None
  | Some v => a <- check v ;; Ok (Some a)
  end.

Definition as_str (v : value) : result string :=
  match v with VStr s => Ok s | _ => Raise ValueError end.

Definition as_date (v : value) : result Z :=
  match v with VDate d => Ok d | _ => Raise ValueError end.

Definition as_float (v : value) : result Qc :=
  match v with
  | VFloat q => Ok q
  | VInt z => Ok (qz z)
  | _ => Raise ValueError
  end.

Definition as_int (v : value) : result Z :=
  match v with VInt z => Ok z | _ => Raise ValueError end.

Definition as_bool (v : value) : result bool :=
  match v with VBool b => Ok b | _ => Raise ValueError end.

Definition as_enum (allowed : list string) (v : value) : result string :=
  match v with
  | VStr s => if member allowed s then Ok s else Raise ValueError
  | _ => Raise ValueError
  end.

Definition as_list {A : Type} (check : value -> result A) (v : value)
  : result (list A) :=
  match v with
  | VList l => map_result check l
  | _ => Raise ValueError
  end.

(** The constructor [TripRequest] applied to keyword arguments [data]: one
    check per declared field, in order. *)
Definition TripRequest_init (data : dict) : result TripRequest :=
  destination <- required as_str data "destination" ;;
  start_date <- required as_date data "start_date" ;;
  end_date <- required as_date data "end_date" ;;
  budget <- required as_float data "budget" ;;
  travelers_count <- with_default as_int 1 data "travelers_count" ;;
  themes <- required (as_list (as_enum TripTheme)) data "themes" ;;
  accommodation_preference <-
    optional (as_enum AccommodationType) data "accommodation_preference" ;;
  transport_preference <-
    optional (as_enum TransportMode) data "transport_preference" ;;
  dietary_restrictions <- optional (as_list as_str) data "dietary_restrictions" ;;
  special_requirements <- optional as_str data "special_requirements" ;;
  language_preference <- with_default as_str "en" data "language_preference" ;;
  include_flights <- with_default as_bool true data "include_flights" ;;
  flexible_dates <- with_default as_bool false data "flexible_dates" ;;
  Ok {| destination := destination;
        start_date := start_date;
        end_date := end_date;
        budget := budget;
        travelers_count := travelers_count;
        themes := themes;
        accommodation_preference := accommodation_preference;
        transport_preference := transport_preference;
        dietary_restrictions := dietary_restrictions;
        special_requirements := special_requirements;
        language_preference := language_preference;
        include_flights := include_flights;
        flexible_dates := flexible_dates |}.

(** [validators.validate_dates]. *)
Definition validate_dates (req : TripRequest) : result bool :=
  if start_date req >=? end_date req then Raise ValueError else Ok true.

(** [duration_days] as [_structure_itinerary] computes it:
    [(trip_request.end_date - trip_request.start_date).days + 1]. *)
Definition structured_duration_days (req : TripRequest) : Z :=
  (end_date req - start_date req) + 1.

End Trip.

(* ------------------------------------------------------------------ *)
(** ** app/api/routes.py *)

Module Routes.




End Routes.

(* ------------------------------------------------------------------ *)
(** ** app/services/itinerary_service.py *)

Module ItineraryService.

Record Activity : Type := {
  name : string;
  description : string;
  duration_hours : Qc;
  cost : Qc;
  location : dict;
  category : string;
  rating : option Qc;
  booking_required : bool;
  booking_url : option string;
  tips : option (list string)
}.

Record DayItinerary : Type := {
  day_number : Z;
  date : Z;
  activities : list Activity;
  meals : list value;
  transport : list value;
  accommodation : option value;
  total_cost : Qc;
  notes : option string
}.

(** [_get_distance]. *)
Definition _get_distance (activity1 activity2 : Activity) (matrix : value) : Qc :=
  qz 1.

Section Builtins.
Context {A : Type}.

(** [min(best :: rest, key=key)]: the first item whose key is smallest. *)
Fixpoint min_by_key (key : A -> Qc) (best : A) (rest : list A) : A :=
  match rest with
  | [] => best
  | x :: rest' =>
      if Qcgtb (key best) (key x) then min_by_key key x rest'
      else min_by_key key best rest'
  end.

(** [l[-1]]; [None] stands for [IndexError]. *)
Definition last_item (l : list A) : option A :=
  last (map Some l) None.

(** [l.remove(x)]: drops the first item that compares equal to [x];
    [None] stands for [ValueError]. *)
Fixpoint list_remove (eqb : A -> A -> bool) (x : A) (l : list A)
  : option (list A) :=
  match l with
  | [] => None
  | y :: rest =>
      if eqb y x then Some rest
      else option_map (cons y) (list_remove eqb x rest)
  end.

End Builtins.

(** The [while remaining] loop.  Every round removes one item from
    [remaining] or raises, so [length remaining] rounds are enough. *)
Fixpoint nearest_neighbor (eqb : Activity -> Activity -> bool) (matrix : value)
  (rounds : nat) (optimized remaining : list Activity) : result (list Activity) :=
  match remaining with
  | [] => Ok optimized
  | first :: others =>
      match rounds with
      | O => Ok optimized
      | S rounds' =>
          match last_item optimized with
          | None => Raise IndexError
          | Some current =>
              let nearest :=
                min_by_key (fun x => _get_distance current x matrix) first others in
              match list_remove eqb nearest remaining with
              | None => Raise ValueError
              | Some remaining' =>
                  nearest_neighbor eqb matrix rounds' (optimized ++ [nearest]) remaining'
              end
          end
      end
  end.

(** The addresses collected by the loop over [activities]:
    [if activity.location and 'address' in activity.location]. *)
Definition addresses (activities : list Activity) : list value :=
  flat_map (fun activity =>
              match location activity with
              | [] => []
              | _ => match dict_get (location activity) "address" with
                     | Some address => [address]
                     | None => []
                     end
              end) activities.

(** [_get_optimal_route].  [eqb] is the comparison [list.remove] uses.  The
    whole body is inside [try]; the handler returns [activities]. *)
Definition _get_optimal_route (eqb : Activity -> Activity -> bool) (env : Env)
  (activities : list Activity) : list Activity :=
  if (List.length activities <=? 2)%nat then activities
  else
    let locations := addresses activities in
    if (List.length locations <? List.length activities)%nat then activities
    else
      match (matrix <- distance_matrix env locations locations ;;
             match activities with
             | [] => Raise IndexError
             | first :: remaining =>
                 nearest_neighbor eqb matrix (List.length remaining) [first] remaining
             end) with
      | Ok optimized => optimized
      | Raise _ => activities
      end.

Definition set_activities (day : DayItinerary) (l : list Activity) : DayItinerary :=
  {| day_number := day_number day; date := date day; activities := l;
     meals := meals day; transport := transport day;
     accommodation := accommodation day; total_cost := total_cost day;
     notes := notes day |}.

Definition extend_transport (day : DayItinerary) (l : list value) : DayItinerary :=
  {| day_number := day_number day; date := date day; activities := activities day;
     meals := meals day; transport := transport day ++ l;
     accommodation := accommodation day; total_cost := total_cost day;
     notes := notes day |}.

(** [_optimize_routes] on the days of an itinerary.  [calculate_transport]
    is [_calculate_transport], which asks the maps service for directions.
    The loop is inside [try]; the handler returns the itinerary as it
    stands. *)
Fixpoint _optimize_routes (eqb : Activity -> Activity -> bool) (env : Env)
  (calculate_transport : list Activity -> result (list value))
  (daily_itineraries : list DayItinerary) : list DayItinerary :=
  match daily_itineraries with
  | [] => []
  | day :: rest =>
      if (1 <? List.length (activities day))%nat then
        let optimized_order := _get_optimal_route eqb env (activities day) in
        let day1 := match optimized_order with
                    | [] => day
                    | _ => set_activities day optimized_order
                    end in
        match calculate_transport (activities day1) with
        | Raise _ => day1 :: rest
        | Ok transport_details =>
            extend_transport day1 transport_details
              :: _optimize_routes eqb env calculate_transport rest
        end
      else day :: _optimize_routes eqb env calculate_transport rest
  end.

End ItineraryService.

(* ------------------------------------------------------------------ *)
(** ** app/services/booking_service.py *)

Module BookingService.

(** The state a booking call can touch: the stream of UUIDs handed out by
    [uuid.uuid4()] and the requests sent through [self.client]. *)
Record World : Type := {
  uuid_hex : nat -> string;
  uuids_drawn : nat;
  requests_sent : list string
}.

Definition M (A : Type) : Type := World -> A * World.

Definition ret {A : Type} (a : A) : M A := fun w => (a, w).

Definition bindM {A B : Type} (m : M A) (k : A -> M B) : M B :=
  fun w => let (a, w') := m w in k a w'.

Notation "x <~ m ;; k" := (bindM m (fun x => k))
  (at level 61, m at next level, right associativity).

(** [uuid.uuid4().hex]. *)
Definition uuid4_hex : M string :=
  fun w => (uuid_hex w (uuids_drawn w),
            {| uuid_hex := uuid_hex w;
               uuids_drawn := S (uuids_drawn w);
               requests_sent := requests_sent w |}).

Definition upper_char (a : ascii) : ascii :=
  let n := nat_of_ascii a in
  if ((97 <=? n) && (n <=? 122))%nat then ascii_of_nat (n - 32) else a.

(** [s.upper()] on the characters a hexadecimal string is made of. *)
Definition str_upper (s : string) : string :=
  string_of_list_ascii (map upper_char (list_ascii_of_string s)).

(** [f"{prefix}{uuid.uuid4().hex[:n].upper()}"]. *)
Definition fresh_code (prefix : string) (n : nat) : M value :=
  h <~ uuid4_hex ;;
  ret (VStr (prefix ++ str_upper (String.substring 0 n h))).

(** [f"{prefix}{uuid.uuid4().hex}"]. *)
Definition fresh_url (prefix : string) : M value :=
  h <~ uuid4_hex ;;
  ret (VStr (prefix ++ h)).

Definition _book_flight (flight_data : dict) : M dict :=
  confirmation_code <~ fresh_code "FL-" 8 ;;
  pnr <~ fresh_code "PNR" 6 ;;
  ticket_url <~ fresh_url "https://emt.com/tickets/" ;;
  ret [ ("confirmation_code", confirmation_code);
        ("pnr", pnr);
        ("status", VStr "confirmed");
        ("ticket_url", ticket_url) ].

Definition _book_hotel (hotel_data : dict) : M dict :=
  confirmation_code <~ fresh_code "HT-" 8 ;;
  reservation_id <~ fresh_code "RES" 6 ;;
  voucher_url <~ fresh_url "https://emt.com/vouchers/" ;;
  ret [ ("confirmation_code", confirmation_code);
        ("reservation_id", reservation_id);
        ("status", VStr "confirmed");
        ("voucher_url", voucher_url) ].

Definition _book_train (train_data : dict) : M dict :=
  confirmation_code <~ fresh_code "TR-" 8 ;;
  pnr <~ fresh_code "PNR" 10 ;;
  ticket_url <~ fresh_url "https://emt.com/train-tickets/" ;;
  ret [ ("confirmation_code", confirmation_code);
        ("pnr", pnr);
        ("status", VStr "confirmed");
        ("ticket_url", ticket_url) ].

Definition _book_bus (bus_data : dict) : M dict :=
  confirmation_code <~ fresh_code "BS-" 8 ;;
  booking_id <~ fresh_code "BUS" 6 ;;
  ticket_url <~ fresh_url "https://emt.com/bus-tickets/" ;;
  ret [ ("confirmation_code", confirmation_code);
        ("booking_id", booking_id);
        ("status", VStr "confirmed");
        ("ticket_url", ticket_url) ].

Definition _book_cab (cab_data : dict) : M dict :=
  confirmation_code <~ fresh_code "CB-" 8 ;;
  ride_id <~ fresh_code "RIDE" 6 ;;
  ret [ ("confirmation_code", confirmation_code);
        ("ride_id", ride_id);
        ("status", VStr "confirmed");
        ("driver_details",
          VDict [ ("name", VStr "Driver Name");
                  ("phone", VStr "+91-9999999999");
                  ("vehicle", VStr "Vehicle Model");
                  ("number", VStr "DL01AB1234") ]) ].

Definition _book_transport (transport_data : dict) : M dict :=
  let transport_type := dict_get_default transport_data "transport_type" (VStr "cab") in
  if is_str transport_type "train" then _book_train transport_data
  else if is_str transport_type "bus" then _book_bus transport_data
  else _book_cab transport_data.

Definition _book_activity (activity_data : dict) : M dict :=
  confirmation_code <~ fresh_code "AC-" 8 ;;
  booking_ref <~ fresh_code "ACT" 6 ;;
  voucher_url <~ fresh_url "https://emt.com/activities/" ;;
  qr_code <~ fresh_code "QR-" 12 ;;
  ret [ ("confirmation_code", confirmation_code);
        ("booking_ref", booking_ref);
        ("status", VStr "confirmed");
        ("voucher_url", voucher_url);
        ("qr_code", qr_code) ].

(** [_create_emt_booking].  Nothing inside the [try] block can raise, so the
    handler that reports a failed booking is never entered. *)
Definition _create_emt_booking (item_data : dict) : M dict :=
  let booking_type := dict_get_default item_data "type" VNone in
  if is_str booking_type "flight" then _book_flight item_data
  else if is_str booking_type "hotel" then _book_hotel item_data
  else if is_str booking_type "transport" then _book_transport item_data
  else if is_str booking_type "activity" then _book_activity item_data
  else
    confirmation_code <~ fresh_code "EMT-" 8 ;;
    ret [ ("confirmation_code", confirmation_code);
          ("status", VStr "confirmed") ].

(** The confirmation-code prefix as the specification states it: by booking
    type, and by transport type for a transport booking. *)
Definition spec_code_prefix (item_data : dict) : string :=
  let booking_type := dict_get_default item_data "type" VNone in
  let transport_type := dict_get_default item_data "transport_type" (VStr "cab") in
  if is_str booking_type "flight" then "FL-"
  else if is_str booking_type "hotel" then "HT-"
  else if is_str booking_type "transport" then
    (if is_str transport_type "train" then "TR-"
     else if is_str transport_type "bus" then "BS-"
     else "CB-")
  else if is_str booking_type "activity" then "AC-"
  else "EMT-".

(** *** Cancellation *)

Record BookingItem : Type := {
  item_id : string;
  item_name : string;
  (** A naive [datetime], in microseconds. *)
  item_date : Z;
  quantity : Z;
  unit_price : Qc;
  total_price : Qc;
  confirmation_code : option string
}.

Record Booking : Type := {
  booking_id : string;
  trip_id : string;
  user_id : string;
  booking_items : list BookingItem;
  total_amount : Qc
}.

(** [(date - now).total_seconds() / 3600]. *)
Definition hours_until (date now : Z) : Qc :=
  (qfrac (date - now) 1000000 / qz 3600)%Qc.

(** [_calculate_refund]; [now] is [datetime.now()]. *)
Definition _calculate_refund (now : Z) (booking : Booking) : result Qc :=
  match booking_items booking with
  | [] => Raise IndexError
  | first :: _ =>
      let hours_until_booking := hours_until (item_date first) now in
      if Qcgtb hours_until_booking (qz 48) then
        Ok (total_amount booking * qfrac 9 10)%Qc
      else if Qcgtb hours_until_booking (qz 24) then
        Ok (total_amount booking * qfrac 1 2)%Qc
      else Ok (qz 0)
  end.

End BookingService.

(* ------------------------------------------------------------------ *)
(** ** Definitions used to state the properties *)

Module Props.
Import AIService.

(** *** Reading a field deep inside an itinerary *)





(** *** The fields [_adjust_for_budget] rescales, in closed form *)









(** *** The shape the rescaling relies on *)





(** *** Required fields *)

(** [if field not in data: data[field] = default] on a dictionary. *)
Definition with_default_field (field : string) (d : dict) : dict :=
  if dict_has d field then d else dict_set d field (_get_default_value field).

Definition cost_categories : list string :=
  ["accommodation"; "meals"; "activities"; "transport"; "miscellaneous"].

(** A cost map with the five categories, each holding zero. *)
Definition zeroed_cost_map (cb : value) : Prop :=
  exists entries,
    cb = VDict entries /\
    dict_keys entries = cost_categories /\
    Forall (fun kv => num_of (snd kv) = Some (qz 0)) entries.

(** *** Sample data *)

(** A one-day itinerary costing 2000, with one activity and one meal. *)
Definition meal_itinerary : dict :=
  [ ("daily_itineraries", VList
      [ VDict [ ("day_number", VInt 1);
                ("activities", VList
                  [ VDict [ ("activity_name", VStr "Fort visit");
                            ("cost_per_person", VInt 500);
                            ("total_cost", VInt 1000) ] ]);
                ("meals", VList
                  [ VDict [ ("meal_type", VStr "lunch");
                            ("cost_estimate", VInt 500) ] ]);
                ("day_total_cost", VInt 2000) ] ]);
    ("cost_breakdown", VDict [ ("activities", VInt 1000); ("meals", VInt 500);
                               ("transport", VInt 500) ]);
    ("total_estimated_cost", VInt 2000) ].


(** The double-quote character, and a quoted JSON string. *)
Definition dquote : string := String (ascii_of_nat 34) EmptyString.
Definition quoted (s : string) : string := dquote ++ s ++ dquote.

(** Three response texts: a bare number, an object whose total is a string,
    and prose around an empty object. *)
Definition text_number : string := "42".
Definition text_string_total : string :=
  "{" ++ quoted "total_estimated_cost" ++ ": " ++ quoted "12000" ++ "}".
Definition text_empty_object : string := "Here is your plan: {} Enjoy!".

(** [json.loads] on the spans of the texts above (other texts are not
    needed below). *)
Definition sample_json_loads (s : string) : option value :=
  if String.eqb s "42" then Some (VInt 42)
  else if String.eqb s text_string_total
       then Some (VDict [("total_estimated_cost", VStr "12000")])
  else if String.eqb s "{}" then Some (VDict [])
  else None.

(** A world without cache in which the model answers with prose around an
    empty object and the maps lookup times out.  It prints a date as its
    day number. *)
Definition sample_env : Env :=
  {| json_loads := sample_json_loads;
     date_today := 739000;
     date_isoformat :=
       fun d => "day " ++ NilEmpty.string_of_int (Z.to_int d);
     utcnow_isoformat := "2025-01-15T10:00:00";
     now_isoformat := "2025-01-15T15:30:00";
     str_of := fun v => match v with
                        | VInt z => NilEmpty.string_of_int (Z.to_int z)
                        | VStr s => s
                        | _ => "None"
                        end;
     gemini_model := "gemini-pro";
     cached_response := fun _ => None;
     render_prompt := fun _ => Ok "You are an expert travel planner";
     generate_content := fun _ => Ok text_empty_object;
     place_details_lookup := fun _ _ => Raise (ExternalError "timeout");
     distance_matrix := fun _ _ => Ok (VDict []) |}.

(** The same world with the model out of reach. *)
Definition offline_env : Env :=
  {| json_loads := json_loads sample_env;
     date_today := date_today sample_env;
     date_isoformat := date_isoformat sample_env;
     utcnow_isoformat := utcnow_isoformat sample_env;
     now_isoformat := now_isoformat sample_env;
     str_of := str_of sample_env;
     gemini_model := gemini_model sample_env;
     cached_response := cached_response sample_env;
     render_prompt := render_prompt sample_env;
     generate_content := fun _ => Raise (ExternalError "deadline exceeded");
     place_details_lookup := place_details_lookup sample_env;
     distance_matrix := distance_matrix sample_env |}.

Definition goa_request : dict :=
  [ ("destination", VStr "Goa"); ("budget", VInt 30000);
    ("duration_days", VInt 3) ].

(** A request for zero days. *)
Definition zero_day_request : dict :=
  [ ("destination", VStr "Goa"); ("budget", VInt 30000);
    ("duration_days", VInt 0) ].

(** *** The fallback payload *)

(** A request the fallback builder can serve: a numeric budget, a positive
    whole number of days (three when absent), and a start date that is a
    date when present. *)
Definition well_formed_request (trip_request : dict) (budget : value) (days : Z)
  : Prop :=
  dict_get trip_request "budget" = Some budget /\
  is_number budget = true /\
  dict_get_default trip_request "duration_days" (VInt 3) = VInt days /\
  0 < days /\
  (exists d, dict_get_default trip_request "start_date" (VDate d) = VDate d).

Definition named_activity (n : string) (activity : value) : Prop :=
  exists a, activity = VDict a /\ dict_get a "activity_name" = Some (VStr n).

Definition two_fixed_activities (day : value) : Prop :=
  exists d a1 a2,
    day = VDict d /\
    dict_get d "activities" = Some (VList [a1; a2]) /\
    named_activity "Morning Sightseeing" a1 /\
    named_activity "Cultural Experience" a2.

(** The properties of the fallback payload: the total is the budget, there
    is one entry per day, each with the two fixed activities, and
    [fallback_mode] is set. *)
Definition is_fallback_payload (budget : value) (days : Z) (payload : value)
  : Prop :=
  exists fields daily,
    payload = VDict fields /\
    dict_get fields "total_estimated_cost" = Some budget /\
    dict_get fields "fallback_mode" = Some (VBool true) /\
    dict_get fields "daily_itineraries" = Some (VList daily) /\
    Z.of_nat (List.length daily) = days /\
    Forall two_fixed_activities daily.

(** An update keeps a property when the object has it afterwards, whether
    or not the update was interrupted. *)
Definition keeps (P : value -> Prop) (f : value -> Mut.upd value) : Prop :=
  forall a, P a -> P (fst (f a)).

(** The request the trip-planner page builds: its dates are strings. *)
Definition frontend_request : dict :=
  [ ("destination", VStr "Goa");
    ("start_date", VStr "2025-01-22");
    ("end_date", VStr "2025-01-25");
    ("budget", VInt 50000);
    ("travelers_count", VInt 2);
    ("themes", VList [VStr "relaxation"; VStr "foodie"]);
    ("accommodation_preference", VStr "hotel");
    ("transport_preference", VStr "flight") ].

(** *** How often a wrapped call runs its body *)



(** Three attempts with the two pauses between them. *)
Definition three_attempts : list Tenacity.event :=
  [ Tenacity.Attempt 1; Tenacity.Sleep 4; Tenacity.Attempt 2;
    Tenacity.Sleep 4; Tenacity.Attempt 3 ].

(** *** Sample activities and bookings *)

Definition sample_activity (n address : string) : ItineraryService.Activity :=
  {| ItineraryService.name := n;
     ItineraryService.description := "";
     ItineraryService.duration_hours := qz 2;
     ItineraryService.cost := qz 500;
     ItineraryService.location := [("address", VStr address)];
     ItineraryService.category := "sightseeing";
     ItineraryService.rating := None;
     ItineraryService.booking_required := false;
     ItineraryService.booking_url := None;
     ItineraryService.tips := None |}.

Definition three_activities : list ItineraryService.Activity :=
  [ sample_activity "Fort Aguada" "Candolim";
    sample_activity "Baga Beach" "Baga";
    sample_activity "Basilica of Bom Jesus" "Old Goa" ].

(** Activities compared by name. *)
Definition same_name (a b : ItineraryService.Activity) : bool :=
  String.eqb (ItineraryService.name a) (ItineraryService.name b).

Definition sample_world : BookingService.World :=
  {| BookingService.uuid_hex := fun n =>
       if Nat.even n then "3f2a9c0e5b7d4e1f8a6b2c4d6e8f0a1b"
       else "a1b2c3d4e5f60718293a4b5c6d7e8f90";
     BookingService.uuids_drawn := 0;
     BookingService.requests_sent := [] |}.



End Props.

(* ------------------------------------------------------------------ *)
(** ** app/services/ai_service.py: conversation history and optimisation *)

Module Conversations.
Import AIService.

(** [self.conversation_history]: the entries kept per conversation. *)
Definition history_store : Type := list (string * list value).

Fixpoint history_get (store : history_store) (conversation_id : string)
  : option (list value) :=
  match store with
  | [] => None
  | (k, h) :: rest =>
      if String.eqb conversation_id k then Some h
      else history_get rest conversation_id
  end.

Fixpoint history_set (store : history_store) (conversation_id : string)
  (h : list value) : history_store :=
  match store with
  | [] => [(conversation_id, h)]
  | (k, h0) :: rest =>
      if String.eqb conversation_id k then (k, h) :: rest
      else (k, h0) :: history_set rest conversation_id h
  end.

(** [l[-n:]] for a positive [n]. *)
Definition last_n {A : Type} (n : nat) (l : list A) : list A :=
  skipn (List.length l - n) l.

Definition history_entry (timestamp user_message ai_response : string) : value :=
  VDict [ ("timestamp", VStr timestamp);
          ("user_message", VStr user_message);
          ("ai_response", VStr ai_response) ].

(** [_update_conversation_history]: the in-memory store after the call.
    The write to Redis comes after the update, inside the same [try], and
    cannot undo it. *)
Definition _update_conversation_history (store : history_store)
  (conversation_id timestamp user_message ai_response : string) : history_store :=
  let store1 :=
    match history_get store conversation_id with
    | Some _ => store
    | None => history_set store conversation_id []
    end in
  let appended :=
    match history_get store1 conversation_id with
    | Some h => (h ++ [history_entry timestamp user_message ai_response])%list
    | None => [history_entry timestamp user_message ai_response]
    end in
  let store2 := history_set store1 conversation_id appended in
  if (20 <? List.length appended)%nat
  then history_set store2 conversation_id (last_n 20 appended)
  else store2.

(** [_get_conversation_history].  [redis] is [self.redis_client] ([None]
    when caching is off): its [get] returns the stored text, nothing, or
    raises.  Any exception gives the empty list. *)
Definition _get_conversation_history (env : Env)
  (redis : option (string -> result (option string)))
  (store : history_store) (conversation_id : string) (user_id : option string)
  : value :=
  match history_get store conversation_id with
  | Some h => VList h
  | None =>
      match redis, user_id with
      | Some get, Some uid =>
          if String.eqb uid "" then VList []
          else
            match get ("conversation:" ++ uid ++ ":" ++ conversation_id) with
            | Ok (Some cached_history) =>
                if String.eqb cached_history "" then VList []
                else match json_loads env cached_history with
                     | Some history => history
                     | None => VList []
                     end
            | _ => VList []
            end
      | _, _ => VList []
      end
  end.

(** [optimize_itinerary].  [dumps] is [json.dumps], which raises on a value
    it cannot serialise, and [prompt_of] the prompt template.  The whole body
    is inside [try]; the handler returns the itinerary it was given. *)
Definition optimize_itinerary (env : Env) (dumps : value -> result string)
  (prompt_of : string -> string -> string)
  (itinerary optimization_params : dict) : value :=
  match (current <- dumps (VDict itinerary) ;;
         requirements <- dumps (VDict optimization_params) ;;
         text <- generate_content env (prompt_of current requirements) ;;
         optimized <- _parse_and_validate_response env text
                        [("budget", dict_get_default itinerary "total_estimated_cost" VNone)] ;;
         _ <- py_get optimized "total_estimated_cost" VNone ;;
         Ok optimized) with
  | Ok optimized => optimized
  | Raise _ => VDict itinerary
  end.

End Conversations.

(* ------------------------------------------------------------------ *)
(** ** app/services/maps_service.py: helpers and mock data *)

Module MapsHelpers.

(** [v[:n]]: strings and lists can be sliced; nothing else modelled here
    can (a dictionary raises [KeyError] instead of [TypeError] from Python
    3.12 on; no statement below depends on which). *)
Definition slice_to (n : nat) (v : value) : result value :=
  match v with
  | VStr s => Ok (VStr (String.substring 0 n s))
  | VList l => Ok (VList (firstn n l))
  | _ => Raise TypeError
  end.

Definition process_review (review : dict) : result value :=
  text <- slice_to 500 (dict_get_default review "text" (VStr "")) ;;
  Ok (VDict [ ("author", dict_get_default review "author_name" VNone);
              ("rating", dict_get_default review "rating" VNone);
              ("text", text);
              ("time", dict_get_default review "relative_time_description" VNone);
              ("language", dict_get_default review "language" VNone) ]).

(** [_process_reviews]. *)
Definition _process_reviews (reviews : list dict) : result (list value) :=
  map_result process_review (firstn 5 reviews).

(** [_extract_photo_references]. *)
Definition _extract_photo_references (photos : list dict) : list value :=
  map (fun photo => dict_get_default photo "photo_reference" (VStr ""))
      (filter (fun photo => dict_has photo "photo_reference") (firstn 5 photos)).

(** The loop of [_check_dietary_compatibility]; [lower] is [str.lower]. *)
Fixpoint some_restriction_matches (lower : string -> string) (haystack : string)
  (restrictions : list string) : bool :=
  match restrictions with
  | [] => false
  | restriction :: rest =>
      if str_contains (lower restriction) haystack then true
      else some_restriction_matches lower haystack rest
  end.

(** [_check_dietary_compatibility]. *)
Definition _check_dietary_compatibility (lower : string -> string)
  (types : list string) (dietary_restrictions : option (list string)) : bool :=
  match dietary_restrictions with
  | None | Some [] => true
  | Some restrictions =>
      some_restriction_matches lower (lower (String.concat " " types)) restrictions
  end.

(** One round of the loop of [_process_address_components]. *)
Definition record_component (processed : dict) (component : dict) : result dict :=
  let types := dict_get_default component "types" (VList []) in
  let record k := long_name <- dict_getitem component "long_name" ;;
                  Ok (dict_set processed k long_name) in
  is_country <- py_contains "country" types ;;
  if is_country then record "country"
  else
    is_state <- py_contains "administrative_area_level_1" types ;;
    if is_state then record "state"
    else
      is_city <- py_contains "locality" types ;;
      if is_city then record "city"
      else
        is_postal_code <- py_contains "postal_code" types ;;
        if is_postal_code then record "postal_code"
        else Ok processed.

Fixpoint record_components (processed : dict) (components : list dict)
  : result dict :=
  match components with
  | [] => Ok processed
  | component :: rest =>
      processed' <- record_component processed component ;;
      record_components processed' rest
  end.

(** [_process_address_components]. *)
Definition _process_address_components (components : list dict) : result dict :=
  record_components [] components.

(** [_get_mock_distance_matrix]. *)
Definition _get_mock_distance_matrix (origins destinations : list value) : value :=
  VDict
    [ ("results", VList
        (flat_map (fun origin =>
           map (fun dest =>
                  VDict [ ("origin", origin);
                          ("destination", dest);
                          ("distance", VDict [("text", VStr "5 km"); ("value", VInt 5000)]);
                          ("duration", VDict [("text", VStr "15 mins"); ("value", VInt 900)]);
                          ("status", VStr "OK") ])
               destinations)
           origins));
      ("status", VStr "OK");
      ("mock_data", VBool true) ].

(** [_get_mock_directions]. *)
Definition _get_mock_directions (env : Env) (origin destination : value)
  (mode : string) : value :=
  VDict
    [ ("routes", VList
        [ VDict [ ("summary", VStr (str_of env origin ++ " to " ++ str_of env destination));
                  ("distance", VDict [("text", VStr "10 km"); ("value", VInt 10000)]);
                  ("duration", VDict [("text", VStr "30 mins"); ("value", VInt 1800)]);
                  ("steps", VList []);
                  ("polyline", VStr "mock_polyline") ] ]);
      ("origin_address", origin);
      ("destination_address", destination);
      ("mock_data", VBool true) ].

(** [_get_from_cache].  [redis] is [self.redis_client] ([None] when no
    cache is configured); a failing lookup or an unreadable entry counts as
    a miss. *)
Definition _get_from_cache (env : Env)
  (redis : option (string -> result (option string))) (key : string)
  : option value :=
  match redis with
  | None => None
  | Some get =>
      match get key with
      | Ok (Some data) =>
          if String.eqb data "" then None else json_loads env data
      | _ => None
      end
  end.

(** [get_directions].  [gmaps] is the branch that queries Google, taken when
    a client is configured: it gives the processed routes, or the empty
    dictionary when anything in it raises. *)
Definition get_directions (env : Env)
  (redis : option (string -> result (option string)))
  (gmaps : option (value -> value -> string -> value))
  (origin destination : value) (mode : string) : value :=
  let cache_key :=
    "directions:" ++ str_of env origin ++ ":" ++ str_of env destination
                  ++ ":" ++ mode in
  let uncached :=
    match gmaps with
    | None => _get_mock_directions env origin destination mode
    | Some query => query origin destination mode
    end in
  match _get_from_cache env redis cache_key with
  | Some cached_data => if py_truthy cached_data then cached_data else uncached
  | None => uncached
  end.

End MapsHelpers.

(* ------------------------------------------------------------------ *)
(** ** app/services/itinerary_service.py: transport, weather, summaries *)

Module ItineraryMore.
Import ItineraryService.

(** [directions['routes'][0]] once [directions.get('routes')] is truthy. *)
Definition first_route (routes : value) : result value :=
  match routes with
  | VList (route :: _) => Ok route
  | VStr (String a _) => Ok (VStr (String a EmptyString))
  | VDict _ => Raise KeyError
  | _ => Raise TypeError
  end.

(** The body of the loop of [_calculate_transport] for two neighbours:
    the leg to append, if any.  [get_directions] is what the maps service
    answers in this round. *)
Definition transport_leg (get_directions : value -> value -> value)
  (a b : Activity) : result (option value) :=
  let from_location := dict_get_default (location a) "address" (VStr "") in
  let to_location := dict_get_default (location b) "address" (VStr "") in
  if py_truthy from_location && py_truthy to_location then
    let directions := get_directions from_location to_location in
    if py_truthy directions then
      routes <- py_get directions "routes" VNone ;;
      if py_truthy routes then
        route <- first_route routes ;;
        distance <- py_get route "distance" VNone ;;
        duration <- py_get route "duration" VNone ;;
        Ok (Some (VDict [ ("from", VStr (name a));
                          ("to", VStr (name b));
                          ("mode", VStr "taxi");
                          ("distance", distance);
                          ("duration", duration);
                          ("cost_estimate", VInt 50) ]))
      else Ok None
    else Ok None
  else Ok None.

(** The loop of [_calculate_transport] from round [i] on, over the
    activities not yet left behind. *)
Fixpoint transport_from (get_directions : nat -> value -> value -> value)
  (i : nat) (activities : list Activity) : result (list value) :=
  match activities with
  | a :: (b :: _) as rest =>
      leg <- transport_leg (get_directions i) a b ;;
      legs <- transport_from get_directions (S i) rest ;;
      Ok (match leg with Some l => l :: legs | None => legs end)
  | _ => Ok []
  end.

(** [_calculate_transport].  [get_directions i] is what the maps service's
    [get_directions] answers to the call of round [i]; it catches its own
    exceptions. *)
Definition _calculate_transport (get_directions : nat -> value -> value -> value)
  (activities : list Activity) : result (list value) :=
  transport_from get_directions 0 activities.

Record TripItinerary : Type := {
  trip_id : string;
  user_id : option string;
  destination : string;
  start_date : Z;
  end_date : Z;
  duration_days : Z;
  total_budget : Qc;
  actual_cost : Qc;
  travelers_count : Z;
  themes : list string;
  daily_itineraries : list DayItinerary;
  accommodation_details : list value;
  transport_details : list value;
  booking_status : string;
  payment_status : string;
  created_at : Z;
  updated_at : Z;
  weather_forecast : option (list value);
  local_tips : option (list string);
  emergency_contacts : option value
}.

Definition forecast_entry (env : Env) (date : Z) : value :=
  VDict [ ("date", VStr (date_isoformat env date));
          ("temperature", VDict [("min", VInt 20); ("max", VInt 30)]);
          ("condition", VStr "Partly Cloudy");
          ("precipitation_chance", VInt 20) ].

(** The list [_add_weather_forecast] stores in [weather_forecast]. *)
Definition weather_forecast_for (env : Env) (itinerary : TripItinerary)
  : list value :=
  map (fun day => forecast_entry env (start_date itinerary + Z.of_nat day))
      (seq 0 (Z.to_nat (duration_days itinerary))).

(** [_add_weather_forecast]. *)
Definition _add_weather_forecast (env : Env) (itinerary : TripItinerary)
  : TripItinerary :=
  {| trip_id := trip_id itinerary;
     user_id := user_id itinerary;
     destination := destination itinerary;
     start_date := start_date itinerary;
     end_date := end_date itinerary;
     duration_days := duration_days itinerary;
     total_budget := total_budget itinerary;
     actual_cost := actual_cost itinerary;
     travelers_count := travelers_count itinerary;
     themes := themes itinerary;
     daily_itineraries := daily_itineraries itinerary;
     accommodation_details := accommodation_details itinerary;
     transport_details := transport_details itinerary;
     booking_status := booking_status itinerary;
     payment_status := payment_status itinerary;
     created_at := created_at itinerary;
     updated_at := updated_at itinerary;
     weather_forecast := Some (weather_forecast_for env itinerary);
     local_tips := local_tips itinerary;
     emergency_contacts := emergency_contacts itinerary |}.

(** [_get_itinerary]: retrieval is not implemented. *)
Definition _get_itinerary (trip_id : string) : option TripItinerary := None.

(** The highlights of [get_itinerary_summary]: the first two activities of
    each day, five names at most. *)
Definition summary_highlights (itinerary : TripItinerary) : list string :=
  firstn 5
    (flat_map (fun day => map name (firstn 2 (activities day)))
              (daily_itineraries itinerary)).

Record TripSummary : Type := {
  summary_trip_id : string;
  summary_destination : string;
  summary_dates : string;
  summary_total_cost : Qc;
  summary_status : string;
  summary_highlights_of : list string;
  summary_shareable_link : option string
}.

(** [get_itinerary_summary], for a given way of retrieving itineraries. *)
Definition get_itinerary_summary_with (env : Env)
  (retrieve : string -> option TripItinerary) (trip_id : string)
  : result TripSummary :=
  match retrieve trip_id with
  | None => Raise ValueError
  | Some itinerary =>
      Ok {| summary_trip_id := trip_id;
            summary_destination := destination itinerary;
            summary_dates :=
              date_isoformat env (start_date itinerary) ++ " to " ++
              date_isoformat env (end_date itinerary);
            summary_total_cost := actual_cost itinerary;
            summary_status := booking_status itinerary;
            summary_highlights_of := summary_highlights itinerary;
            summary_shareable_link :=
              Some ("https://tripplanner.com/share/" ++ trip_id) |}
  end.

(** [get_itinerary_summary]. *)
Definition get_itinerary_summary (env : Env) (trip_id : string)
  : result TripSummary :=
  get_itinerary_summary_with env _get_itinerary trip_id.

End ItineraryMore.

(* ------------------------------------------------------------------ *)
(** ** app/services/booking_service.py: creating and cancelling bookings *)

Module BookingFlow.
Import BookingService.

Definition BookingType : list string :=
  ["flight"; "hotel"; "transport"; "activity"; "package"].

Inductive BookingStatus : Type :=
| PENDING | CONFIRMED | CANCELLED | FAILED | REFUNDED.

Inductive PaymentMethod : Type :=
| CREDIT_CARD | DEBIT_CARD | UPI | NET_BANKING | WALLET.

Definition PaymentMethod_value (m : PaymentMethod) : string :=
  match m with
  | CREDIT_CARD => "credit_card"
  | DEBIT_CARD => "debit_card"
  | UPI => "upi"
  | NET_BANKING => "net_banking"
  | WALLET => "wallet"
  end.

(** [BookingItem] with all its fields. *)
Record StoredItem : Type := {
  s_item_id : string;
  s_booking_type : string;
  s_name : string;
  s_description : string;
  s_provider : string;
  s_date : Z;
  s_quantity : Z;
  s_unit_price : Qc;
  s_total_price : Qc;
  s_details : dict;
  s_cancellation_policy : option string;
  s_confirmation_code : option string
}.

(** [Booking] with all its fields. *)
Record StoredBooking : Type := {
  s_booking_id : string;
  s_trip_id : string;
  s_user_id : string;
  s_booking_items : list StoredItem;
  s_total_amount : Qc;
  s_currency : string;
  s_status : BookingStatus;
  s_payment_method : option PaymentMethod;
  s_payment_id : option string;
  s_created_at : Z;
  s_updated_at : Z;
  s_confirmed_at : option Z;
  s_cancelled_at : option Z;
  s_cancellation_reason : option string;
  s_refund_amount : option Qc;
  s_emt_booking_reference : option string
}.

(** The fields of an item and of a booking that the refund rule reads. *)
Definition as_item (i : StoredItem) : BookingItem :=
  {| item_id := s_item_id i;
     item_name := s_name i;
     item_date := s_date i;
     quantity := s_quantity i;
     unit_price := s_unit_price i;
     total_price := s_total_price i;
     confirmation_code := s_confirmation_code i |}.

Definition as_booking (b : StoredBooking) : Booking :=
  {| booking_id := s_booking_id b;
     trip_id := s_trip_id b;
     user_id := s_user_id b;
     booking_items := map as_item (s_booking_items b);
     total_amount := s_total_amount b |}.

Record BookingRequest : Type := {
  req_trip_id : string;
  req_user_id : string;
  req_booking_items : list dict;
  req_payment_method : PaymentMethod;
  req_card_token : option string;
  req_billing_details : dict
}.

(** [str(uuid.uuid4())]: the 32 hexadecimal digits in groups of 8, 4, 4, 4
    and 12. *)
Definition dashed (h : string) : string :=
  String.substring 0 8 h ++ "-" ++ String.substring 8 4 h ++ "-" ++
  String.substring 12 4 h ++ "-" ++ String.substring 16 4 h ++ "-" ++
  String.substring 20 12 h.

Definition uuid4_str : M string :=
  h <~ uuid4_hex ;;
  ret (dashed h).

(** [BookingType(v)]: the member whose value is [v], else [ValueError]. *)
Definition BookingType_of (v : value) : result string :=
  match v with
  | VStr s =>
      if existsb (String.eqb s) BookingType then Ok s else Raise ValueError
  | _ => Raise ValueError
  end.

(** An [int] or a [bool] as an integer. *)
Definition int_of (v : value) : option Z :=
  match v with
  | VInt z => Some z
  | VBool b => Some (if b then 1 else 0)
  | _ => None
  end.

Definition repeat_str (n : Z) (s : string) : string :=
  String.concat "" (repeat s (Z.to_nat n)).

Definition repeat_list (n : Z) (l : list value) : list value :=
  List.concat (repeat l (Z.to_nat n)).

(** [a * b]: numbers multiply, a string or a list is repeated by an
    integer, every other pairing raises [TypeError]. *)
Definition py_mul (a b : value) : result value :=
  match int_of a, int_of b with
  | Some x, Some y => Ok (VInt (x * y))
  | _, _ =>
      match num_of a, num_of b with
      | Some x, Some y => Ok (VFloat (x * y)%Qc)
      | _, _ =>
          match a, int_of b with
          | VStr s, Some n => Ok (VStr (repeat_str n s))
          | VList l, Some n => Ok (VList (repeat_list n l))
          | _, _ =>
              match int_of a, b with
              | Some n, VStr s => Ok (VStr (repeat_str n s))
              | Some n, VList l => Ok (VList (repeat_list n l))
              | _, _ => Raise TypeError
              end
          end
      end
  end.

(** The arguments [create_booking] hands to [BookingItem(...)], evaluated
    from left to right. *)
Record BookingItem_args : Type := {
  arg_item_id : string;
  arg_booking_type : string;
  arg_name : value;
  arg_description : value;
  arg_provider : value;
  arg_date : Z;
  arg_quantity : value;
  arg_unit_price : value;
  arg_total_price : value;
  arg_details : dict;
  arg_confirmation_code : value
}.

(** [datetime.fromisoformat(v)]; [parse] gives the instant a well-formed
    text denotes. *)
Definition fromisoformat (parse : string -> option Z) (v : value) : result Z :=
  match v with
  | VStr s => match parse s with Some d => Ok d | None => Raise ValueError end
  | _ => Raise TypeError
  end.

Definition item_args (parse : string -> option Z) (item_id : string)
  (item_data emt_booking : dict) : result BookingItem_args :=
  type <- dict_getitem item_data "type" ;;
  booking_type <- BookingType_of type ;;
  name <- dict_getitem item_data "name" ;;
  date_text <- dict_getitem item_data "date" ;;
  date <- fromisoformat parse date_text ;;
  unit_price <- dict_getitem item_data "price" ;;
  total_price <- py_mul unit_price (dict_get_default item_data "quantity" (VInt 1)) ;;
  Ok {| arg_item_id := item_id;
        arg_booking_type := booking_type;
        arg_name := name;
        arg_description := dict_get_default item_data "description" (VStr "");
        arg_provider := dict_get_default item_data "provider" (VStr "EMT");
        arg_date := date;
        arg_quantity := dict_get_default item_data "quantity" (VInt 1);
        arg_unit_price := unit_price;
        arg_total_price := total_price;
        arg_details := item_data;
        arg_confirmation_code := dict_get_default emt_booking "confirmation_code" VNone |}.

(** The validation [BookingItem(...)] performs, for arguments that already
    have the annotated types: a number is accepted where a [float] is
    expected.  Conversions pydantic may apply to other values are not
    represented; such values are rejected with [ValueError]. *)
Definition BookingItem_init (args : BookingItem_args) : result StoredItem :=
  match arg_name args, arg_description args, arg_provider args,
        arg_quantity args, num_of (arg_unit_price args),
        num_of (arg_total_price args) with
  | VStr name, VStr description, VStr provider, VInt quantity,
    Some unit_price, Some total_price =>
      code <- match arg_confirmation_code args with
              | VNone => Ok None
              | VStr c => Ok (Some c)
              | _ => Raise ValueError
              end ;;
      Ok {| s_item_id := arg_item_id args;
            s_booking_type := arg_booking_type args;
            s_name := name;
            s_description := description;
            s_provider := provider;
            s_date := arg_date args;
            s_quantity := quantity;
            s_unit_price := unit_price;
            s_total_price := total_price;
            s_details := arg_details args;
            s_cancellation_policy := None;
            s_confirmation_code := code |}
  | _, _, _, _, _, _ => Raise ValueError
  end.

(** One round of the loop of [create_booking]: the provider is asked
    first, then the item is built.  [validate] is the validation
    [BookingItem(...)] performs. *)
Definition process_item (validate : BookingItem_args -> result StoredItem)
  (parse : string -> option Z) (item_data : dict) : M (result StoredItem) :=
  emt_booking <~ _create_emt_booking item_data ;;
  item_id <~ uuid4_str ;;
  ret (args <- item_args parse item_id item_data emt_booking ;;
       validate args).

Fixpoint process_items (validate : BookingItem_args -> result StoredItem)
  (parse : string -> option Z) (items : list dict)
  (processed_items : list StoredItem) (total_amount : Qc)
  : M (result (list StoredItem * Qc)) :=
  match items with
  | [] => ret (Ok (processed_items, total_amount))
  | item_data :: rest =>
      r <~ process_item validate parse item_data ;;
      match r with
      | Raise e => ret (Raise e)
      | Ok booking_item =>
          process_items validate parse rest
            (processed_items ++ [booking_item])%list
            (total_amount + s_total_price booking_item)%Qc
      end
  end.

(** [create_booking].  [now 0] and [now 1] are the two readings of the
    clock; [_save_booking] does nothing. *)
Definition create_booking (validate : BookingItem_args -> result StoredItem)
  (parse : string -> option Z) (now : nat -> Z)
  (booking_request : BookingRequest) : M (result StoredBooking) :=
  booking_id <~ uuid4_str ;;
  r <~ process_items validate parse (req_booking_items booking_request) [] (qz 0) ;;
  ret (match r with
       | Raise e => Raise e
       | Ok (processed_items, total_amount) =>
           Ok {| s_booking_id := booking_id;
                 s_trip_id := req_trip_id booking_request;
                 s_user_id := req_user_id booking_request;
                 s_booking_items := processed_items;
                 s_total_amount := total_amount;
                 s_currency := "INR";
                 s_status := PENDING;
                 s_payment_method := Some (req_payment_method booking_request);
                 s_payment_id := None;
                 s_created_at := now 0%nat;
                 s_updated_at := now 1%nat;
                 s_confirmed_at := None;
                 s_cancelled_at := None;
                 s_cancellation_reason := None;
                 s_refund_amount := None;
                 s_emt_booking_reference := None |}
       end).

(** [_get_booking]: retrieval is not implemented. *)
Definition _get_booking (booking_id : string) : option StoredBooking := None.

(** [_cancel_emt_booking]. *)
Definition _cancel_emt_booking (booking_type confirmation_code : string) : dict :=
  [ ("confirmation_code", VStr confirmation_code);
    ("cancelled", VBool true);
    ("refund_status", VStr "processing") ].

(** [if item.confirmation_code]: a code that is present and not empty. *)
Definition code_of (item : StoredItem) : option string :=
  match s_confirmation_code item with
  | Some c => if String.eqb c "" then None else Some c
  | None => None
  end.

Definition cancel_items (items : list StoredItem) : list dict :=
  flat_map (fun item =>
              match code_of item with
              | Some c => [_cancel_emt_booking (s_booking_type item) c]
              | None => []
              end) items.

(** The dictionary [cancel_booking] returns: the one with status
    [already_cancelled], or the one with status [cancelled] and its three
    other entries. *)
Inductive cancellation : Type :=
| already_cancelled
| cancelled (booking_id : string) (refund_amount : Qc)
            (cancellation_results : list dict).

Definition mark_cancelled (booking : StoredBooking) (cancelled_at updated_at : Z)
  (reason : string) : StoredBooking :=
  {| s_booking_id := s_booking_id booking;
     s_trip_id := s_trip_id booking;
     s_user_id := s_user_id booking;
     s_booking_items := s_booking_items booking;
     s_total_amount := s_total_amount booking;
     s_currency := s_currency booking;
     s_status := CANCELLED;
     s_payment_method := s_payment_method booking;
     s_payment_id := s_payment_id booking;
     s_created_at := s_created_at booking;
     s_updated_at := updated_at;
     s_confirmed_at := s_confirmed_at booking;
     s_cancelled_at := Some cancelled_at;
     s_cancellation_reason := Some reason;
     s_refund_amount := s_refund_amount booking;
     s_emt_booking_reference := s_emt_booking_reference booking |}.

Definition set_refund_amount (booking : StoredBooking) (refund_amount : Qc)
  : StoredBooking :=
  {| s_booking_id := s_booking_id booking;
     s_trip_id := s_trip_id booking;
     s_user_id := s_user_id booking;
     s_booking_items := s_booking_items booking;
     s_total_amount := s_total_amount booking;
     s_currency := s_currency booking;
     s_status := s_status booking;
     s_payment_method := s_payment_method booking;
     s_payment_id := s_payment_id booking;
     s_created_at := s_created_at booking;
     s_updated_at := s_updated_at booking;
     s_confirmed_at := s_confirmed_at booking;
     s_cancelled_at := s_cancelled_at booking;
     s_cancellation_reason := s_cancellation_reason booking;
     s_refund_amount := Some refund_amount;
     s_emt_booking_reference := s_emt_booking_reference booking |}.

(** [cancel_booking], for a given way of retrieving bookings: what is
    returned, and the booking as the call leaves it.  [now 0], [now 1] and
    [now 2] are the three readings of the clock. *)
Definition cancel_booking_with (retrieve : string -> option StoredBooking)
  (now : nat -> Z) (booking_id reason : string)
  : result (cancellation * StoredBooking) :=
  match retrieve booking_id with
  | None => Raise ValueError
  | Some booking =>
      match s_status booking with
      | CANCELLED | REFUNDED => Ok (already_cancelled, booking)
      | _ =>
          let cancellation_results := cancel_items (s_booking_items booking) in
          let booking1 := mark_cancelled booking (now 0%nat) (now 1%nat) reason in
          refund_amount <- _calculate_refund (now 2%nat) (as_booking booking1) ;;
          Ok (cancelled booking_id refund_amount cancellation_results,
              set_refund_amount booking1 refund_amount)
      end
  end.

(** [cancel_booking]. *)
Definition cancel_booking (now : nat -> Z) (booking_id reason : string)
  : result (cancellation * StoredBooking) :=
  cancel_booking_with _get_booking now booking_id reason.

End BookingFlow.

(* ------------------------------------------------------------------ *)
(** ** app/services/payment_service.py *)

Module PaymentService.
Import BookingService BookingFlow.

Record PaymentRequest : Type := {
  pay_booking_id : string;
  pay_amount : Qc;
  pay_currency : string;
  pay_payment_method : PaymentMethod;
  pay_card_details : option dict;
  pay_upi_id : option string;
  pay_return_url : option string
}.

Record PaymentResponse : Type := {
  payment_id : string;
  status : string;
  amount : Qc;
  currency : string;
  payment_method : string;
  transaction_id : string;
  timestamp : Z;
  receipt_url : option string
}.

(** [_process_card_payment].  [intent] is the outcome of
    [stripe.PaymentIntent.create]: the id of the intent, or the exception
    raised; [message] is [str(e)]. *)
Definition _process_card_payment (intent : result string)
  (message : exn -> string) : dict :=
  match intent with
  | Ok id =>
      [ ("status", VStr "succeeded");
        ("transaction_id", VStr id);
        ("receipt_url", VStr ("https://pay.stripe.com/receipts/" ++ id)) ]
  | Raise e =>
      [ ("status", VStr "failed"); ("error", VStr (message e)) ]
  end.

(** [f"{prefix}{uuid.uuid4().hex[:12].upper()}"]. *)
Definition fresh_reference (prefix : string) : M string :=
  h <~ uuid4_hex ;;
  ret (prefix ++ str_upper (String.substring 0 12 h)).

Definition _process_upi_payment (payment_request : PaymentRequest) : M dict :=
  upi_transaction_id <~ fresh_reference "UPI" ;;
  ret [ ("status", VStr "succeeded");
        ("transaction_id", VStr upi_transaction_id);
        ("upi_ref", match pay_upi_id payment_request with
                    | Some u => VStr u
                    | None => VNone
                    end);
        ("receipt_url",
          VStr ("https://payments.example.com/upi/" ++ upi_transaction_id)) ].

Definition _process_netbanking_payment (payment_request : PaymentRequest) : M dict :=
  netbanking_ref <~ fresh_reference "NB" ;;
  ret [ ("status", VStr "succeeded");
        ("transaction_id", VStr netbanking_ref);
        ("bank_ref", VStr netbanking_ref);
        ("receipt_url",
          VStr ("https://payments.example.com/netbanking/" ++ netbanking_ref)) ].

Definition _process_wallet_payment (payment_request : PaymentRequest) : M dict :=
  wallet_ref <~ fresh_reference "WL" ;;
  ret [ ("status", VStr "succeeded");
        ("transaction_id", VStr wallet_ref);
        ("wallet_ref", VStr wallet_ref);
        ("receipt_url",
          VStr ("https://payments.example.com/wallet/" ++ wallet_ref)) ].

(** A [str] field of [PaymentResponse]. *)
Definition str_field (v : value) : result string :=
  match v with VStr s => Ok s | _ => Raise ValueError end.

(** An [Optional[str]] field of [PaymentResponse]. *)
Definition optional_str_field (v : value) : result (option string) :=
  match v with
  | VNone => Ok None
  | VStr s => Ok (Some s)
  | _ => Raise ValueError
  end.

(** The response [process_payment] builds from the outcome of the payment
    method. *)
Definition payment_response (payment_id : string) (now : Z)
  (payment_request : PaymentRequest) (outcome : dict) : result PaymentResponse :=
  status <- dict_getitem outcome "status" ;;
  if is_str status "succeeded" then
    transaction <- dict_getitem outcome "transaction_id" ;;
    transaction_id <- str_field transaction ;;
    receipt_url <- optional_str_field (dict_get_default outcome "receipt_url" VNone) ;;
    Ok {| payment_id := payment_id;
          status := "success";
          amount := pay_amount payment_request;
          currency := pay_currency payment_request;
          payment_method := PaymentMethod_value (pay_payment_method payment_request);
          transaction_id := transaction_id;
          timestamp := now;
          receipt_url := receipt_url |}
  else
    transaction_id <- str_field (dict_get_default outcome "transaction_id" (VStr "")) ;;
    Ok {| payment_id := payment_id;
          status := "failed";
          amount := pay_amount payment_request;
          currency := pay_currency payment_request;
          payment_method := PaymentMethod_value (pay_payment_method payment_request);
          transaction_id := transaction_id;
          timestamp := now;
          receipt_url := None |}.

(** [process_payment].  [now] is the reading of the clock when the response
    is built. *)
Definition process_payment (intent : result string) (message : exn -> string)
  (now : Z) (payment_request : PaymentRequest) : M (result PaymentResponse) :=
  payment_id <~ uuid4_str ;;
  outcome <~ match pay_payment_method payment_request with
             | CREDIT_CARD | DEBIT_CARD => ret (_process_card_payment intent message)
             | UPI => _process_upi_payment payment_request
             | NET_BANKING => _process_netbanking_payment payment_request
             | WALLET => _process_wallet_payment payment_request
             end ;;
  ret (payment_response payment_id now payment_request outcome).

End PaymentService.

(* ------------------------------------------------------------------ *)
(** ** Further definitions used to state properties *)

Module Measures.
Import AIService Props.



(** The keys [_enhance_itinerary_with_context] writes. *)
Definition enhancement_keys : list string :=
  ["metadata"; "trip_metadata"; "booking_ready"; "requires_confirmation";
   "daily_itineraries"].

(** The object is a dictionary that holds [x] under [k] (nothing, when [x]
    is [None]). *)
Definition holds_field (k : string) (x : option value) (v : value) : Prop :=
  exists d, v = VDict d /\ dict_get d k = x.

(** A character does not occur in a string. *)
Definition absent (c : ascii) (s : string) : Prop := str_find c s = -1.


(** Two requests with the same destination, budget, duration and themes. *)
Definition same_cache_fields (r1 r2 : dict) : Prop :=
  dict_get r1 "destination" = dict_get r2 "destination" /\
  dict_get r1 "budget" = dict_get r2 "budget" /\
  dict_get r1 "duration_days" = dict_get r2 "duration_days" /\
  dict_get r1 "themes" = dict_get r2 "themes".

(** A world whose cache holds a plan for the three-day Goa request. *)
Definition cached_plan : value :=
  VDict [ ("daily_itineraries", VList []); ("total_estimated_cost", VInt 28000) ].

Definition caching_env : Env :=
  {| json_loads := json_loads sample_env;
     date_today := date_today sample_env;
     date_isoformat := date_isoformat sample_env;
     utcnow_isoformat := utcnow_isoformat sample_env;
     now_isoformat := now_isoformat sample_env;
     str_of := str_of sample_env;
     gemini_model := gemini_model sample_env;
     cached_response := fun key =>
       if String.eqb key "itinerary:Goa_30000_3_" then Some cached_plan else None;
     render_prompt := render_prompt sample_env;
     generate_content := generate_content sample_env;
     place_details_lookup := place_details_lookup sample_env;
     distance_matrix := distance_matrix sample_env |}.

(** The Goa request again, for other dates and more travelers. *)
Definition goa_request_later : dict :=
  [ ("destination", VStr "Goa"); ("budget", VInt 30000);
    ("duration_days", VInt 3); ("start_date", VDate 739200);
    ("travelers_count", VInt 4) ].

(** A response text without braces, which is not JSON. *)
Definition text_apology : string := "Sorry, I cannot plan this trip.".


(** A string of at most [n] characters or a list of at most [n] items. *)
Definition sized_at_most (n : nat) (v : value) : Prop :=
  match v with
  | VStr s => (String.length s <= n)%nat
  | VList l => (List.length l <= n)%nat
  | _ => False
  end.

(** A review whose text is a string, or that has none. *)
Definition textual_review (review : dict) : Prop :=
  match dict_get review "text" with
  | Some (VStr _) | None => True
  | Some _ => False
  end.

Definition address_keys : list string :=
  ["country"; "state"; "city"; "postal_code"].

(** An activity whose location has a non-empty address. *)
Definition addressed (a : ItineraryService.Activity) : Prop :=
  py_truthy (dict_get_default (ItineraryService.location a) "address" (VStr "")) = true.

(** A transport leg by taxi at the flat estimate. *)
Definition taxi_leg (leg : value) : Prop :=
  py_get leg "mode" VNone = Ok (VStr "taxi")
  /\ py_get leg "cost_estimate" VNone = Ok (VInt 50).

(** The distance of the mock route. *)
Definition mock_distance : value :=
  VDict [("text", VStr "10 km"); ("value", VInt 10000)].

(** Every activity of every day has an address. *)
Definition all_addressed (days : list ItineraryService.DayItinerary) : Prop :=
  Forall (fun day => Forall addressed (ItineraryService.activities day)) days.

(** The number of transport entries of each day. *)
Definition transport_counts (days : list ItineraryService.DayItinerary)
  : list nat :=
  map (fun day => List.length (ItineraryService.transport day)) days.

(** The dates of the entries of a forecast. *)
Definition forecast_dates (forecast : list value) : list (result value) :=
  map (fun entry => py_get entry "date" VNone) forecast.

(** A two-day trip used as an example. *)
Definition sample_day (n : Z) (names : list string) : ItineraryService.DayItinerary :=
  {| ItineraryService.day_number := n;
     ItineraryService.date := 738000 + n;
     ItineraryService.activities :=
       map (fun name => sample_activity name (name ++ " Road")) names;
     ItineraryService.meals := [];
     ItineraryService.transport := [];
     ItineraryService.accommodation := None;
     ItineraryService.total_cost := qz 100;
     ItineraryService.notes := None |}.

Definition sample_itinerary : ItineraryMore.TripItinerary :=
  {| ItineraryMore.trip_id := "t1";
     ItineraryMore.user_id := None;
     ItineraryMore.destination := "Goa";
     ItineraryMore.start_date := 738001;
     ItineraryMore.end_date := 738002;
     ItineraryMore.duration_days := 2;
     ItineraryMore.total_budget := qz 1000;
     ItineraryMore.actual_cost := qz 200;
     ItineraryMore.travelers_count := 2;
     ItineraryMore.themes := ["beach"];
     ItineraryMore.daily_itineraries :=
       [ sample_day 1 ["Fort"; "Beach"; "Market"];
         sample_day 2 ["Temple"; "Museum"; "Harbour"; "Cafe"] ];
     ItineraryMore.accommodation_details := [];
     ItineraryMore.transport_details := [];
     ItineraryMore.booking_status := "draft";
     ItineraryMore.payment_status := "pending";
     ItineraryMore.created_at := 0;
     ItineraryMore.updated_at := 0;
     ItineraryMore.weather_forecast := None;
     ItineraryMore.local_tips := None;
     ItineraryMore.emergency_contacts := None |}.

Definition sum_list (l : list Qc) : Qc := fold_right Qcplus 0%Qc l.


(** An item whose [type] is missing or is not a booking type. *)
Definition unknown_type (item_data : dict) : Prop :=
  is_ok (type <- dict_getitem item_data "type" ;; BookingFlow.BookingType_of type)
  = false.

Definition sample_parse (s : string) : option Z :=
  if String.eqb s "2030-01-01T10:00:00" then Some 1893492000000000 else None.

Definition sample_booking_request : BookingFlow.BookingRequest :=
  {| BookingFlow.req_trip_id := "t-1";
     BookingFlow.req_user_id := "u-1";
     BookingFlow.req_booking_items :=
       [ [ ("type", VStr "hotel"); ("name", VStr "Hotel");
           ("date", VStr "2030-01-01T10:00:00");
           ("price", VFloat (qfrac 2001 2)); ("quantity", VInt 2) ];
         [ ("type", VStr "flight"); ("name", VStr "Flight");
           ("date", VStr "2030-01-01T10:00:00");
           ("price", VInt 500) ] ];
     BookingFlow.req_payment_method := BookingFlow.UPI;
     BookingFlow.req_card_token := None;
     BookingFlow.req_billing_details := [] |}.

Definition cruise_booking_request : BookingFlow.BookingRequest :=
  {| BookingFlow.req_trip_id := "t-1";
     BookingFlow.req_user_id := "u-1";
     BookingFlow.req_booking_items :=
       [ [ ("type", VStr "cruise"); ("name", VStr "Cruise");
           ("date", VStr "2030-01-01T10:00:00");
           ("price", VInt 500) ] ];
     BookingFlow.req_payment_method := BookingFlow.UPI;
     BookingFlow.req_card_token := None;
     BookingFlow.req_billing_details := [] |}.




(** Whether the payment goes through a card and the card processor
    raised. *)
Definition card_declined (intent : result string)
  (payment_request : PaymentService.PaymentRequest) : bool :=
  match PaymentService.pay_payment_method payment_request, intent with
  | (BookingFlow.CREDIT_CARD | BookingFlow.DEBIT_CARD), Raise _ => true
  | _, _ => false
  end.

End Measures.

(* ------------------------------------------------------------------ *)
(** * Properties *)

(** ** Dictionaries and numbers *)

Module PyFacts.

Lemma dict_get_set_same (d : dict) (k : string) (v : value) :
  dict_get (dict_set d k v) k = Some v.
Proof.
  induction d as [|[k' v'] d IH]; simpl.
  - now rewrite String.eqb_refl.
  - destruct (String.eqb k k') eqn:E; simpl; rewrite E; auto.
Qed.

Lemma dict_get_set_other (d : dict) (k k' : string) (v : value) :
  k <> k' -> dict_get (dict_set d k v) k' = dict_get d k'.
Proof.
  intros Hne. induction d as [|[k0 v0] d IH]; simpl.
  - destruct (String.eqb k' k) eqn:E; auto.
    apply String.eqb_eq in E. congruence.
  - destruct (String.eqb k k0) eqn:E; simpl.
    + apply String.eqb_eq in E. subst k0.
      destruct (String.eqb k' k) eqn:E'; auto.
      apply String.eqb_eq in E'. congruence.
    + destruct (String.eqb k' k0); auto.
Qed.

Lemma dict_has_set (d : dict) (k k' : string) (v : value) :
  dict_has d k' = true -> dict_has (dict_set d k v) k' = true.
Proof.
  unfold dict_has. intros H.
  destruct (string_dec k k') as [->|Hne].
  - now rewrite dict_get_set_same.
  - now rewrite dict_get_set_other.
Qed.

Lemma dict_has_set_same (d : dict) (k : string) (v : value) :
  dict_has (dict_set d k v) k = true.
Proof. unfold dict_has. now rewrite dict_get_set_same. Qed.

Lemma Qcgtb_spec (x y : Qc) : Qcgtb x y = true <-> (y < x)%Qc.
Proof.
  unfold Qcgtb. change (y < x)%Qc with (x > y)%Qc. rewrite Qcgt_alt.
  destruct (x ?= y)%Qc; split; congruence.
Qed.

Lemma Qceqb_spec (x y : Qc) : Qceqb x y = true <-> x = y.
Proof.
  unfold Qceqb. rewrite Qceq_alt.
  destruct (x ?= y)%Qc; split; congruence.
Qed.

End PyFacts.

(* ------------------------------------------------------------------ *)
(** ** [_adjust_for_budget] *)

Module AdjustFacts.
Import AIService Props Mut PyFacts.










End AdjustFacts.

(* ------------------------------------------------------------------ *)
(** ** [_parse_and_validate_response] *)

Module ParseFacts.
Import AIService Props Mut PyFacts.

Lemma fill_required_dict (d : dict) :
  fill_required required_fields (VDict d) =
    Ok (VDict (with_default_field "total_estimated_cost"
                 (with_default_field "cost_breakdown"
                    (with_default_field "daily_itineraries" d)))).
Proof.
  unfold required_fields, with_default_field. simpl.
  destruct (dict_has d "daily_itineraries"); simpl;
    match goal with |- context [dict_has ?x "cost_breakdown"] =>
      destruct (dict_has x "cost_breakdown") end; simpl;
    match goal with |- context [dict_has ?x "total_estimated_cost"] =>
      destruct (dict_has x "total_estimated_cost") end; reflexivity.
Qed.

Lemma with_default_field_has (field k : string) (d : dict) :
  dict_has d k = true -> dict_has (with_default_field field d) k = true.
Proof.
  unfold with_default_field. destruct (dict_has d field); auto using dict_has_set.
Qed.

Lemma with_default_field_has_same (field : string) (d : dict) :
  dict_has (with_default_field field d) field = true.
Proof.
  unfold with_default_field. destruct (dict_has d field) eqn:E; auto.
  apply dict_has_set_same.
Qed.

Lemma with_default_field_get_other (field k : string) (d : dict) :
  field <> k -> dict_get (with_default_field field d) k = dict_get d k.
Proof.
  intros Hne. unfold with_default_field. destruct (dict_has d field); auto.
  now apply dict_get_set_other.
Qed.

Lemma with_default_field_get_missing (field : string) (d : dict) :
  dict_has d field = false ->
  dict_get (with_default_field field d) field = Some (_get_default_value field).
Proof.
  intros H. unfold with_default_field. rewrite H. apply dict_get_set_same.
Qed.

(** What [store_back] does to a dictionary. *)
Lemma store_back_dict (d : dict) (k : string) (x : value) :
  exists d',
    Mut.store_back (VDict d) k x = VDict d' /\
    (forall k', dict_has d k' = true -> dict_has d' k' = true) /\
    (forall k', k <> k' -> dict_get d' k' = dict_get d k') /\
    (dict_has d k = true -> dict_get d' k = Some x) /\
    (dict_has d k = false -> d' = d).
Proof.
  unfold Mut.store_back. destruct (dict_has d k) eqn:E.
  - exists (dict_set d k x). repeat split; auto using dict_has_set.
    + intros k' Hne. now apply dict_get_set_other.
    + intros _. apply dict_get_set_same.
    + discriminate.
  - exists d. repeat split; auto. discriminate.
Qed.

Lemma scale_entry_zero (r : Qc) (kv : string * value) :
  num_of (snd kv) = Some (qz 0) -> num_of (snd (scale_entry r kv)) = Some (qz 0).
Proof.
  intros H. unfold scale_entry. rewrite H. simpl. f_equal.
  change (qz 0) with 0%Qc. ring.
Qed.

Lemma scale_entry_key (r : Qc) (kv : string * value) :
  fst (scale_entry r kv) = fst kv.
Proof. unfold scale_entry. destruct (num_of (snd kv)); reflexivity. Qed.

Lemma zeroed_cost_map_scaled (r : Qc) (entries : dict) :
  zeroed_cost_map (VDict entries) ->
  zeroed_cost_map (VDict (map (scale_entry r) entries)).
Proof.
  intros (e & He & Hk & Hz). injection He as <-.
  exists (map (scale_entry r) entries). split; [reflexivity|]. split.
  - unfold dict_keys in *. rewrite map_map.
    rewrite <- Hk. apply map_ext. intros kv. apply scale_entry_key.
  - rewrite Forall_forall in *. intros kv Hin.
    apply in_map_iff in Hin as (kv0 & <- & Hin0).
    apply scale_entry_zero. now apply Hz.
Qed.

Lemma zeroed_cost_map_default : zeroed_cost_map (_get_default_value "cost_breakdown").
Proof.
  eexists. split; [reflexivity|]. split; [reflexivity|].
  repeat constructor.
Qed.

(** What [_adjust_for_budget] keeps of a dictionary: its keys, an empty list
    of days, a zeroed cost map, and everything when the total is zero. *)
Lemma adjust_for_budget_keeps (it : dict) (budget : value) :
  exists it',
    _adjust_for_budget (VDict it) budget = VDict it' /\
    (forall k, dict_has it k = true -> dict_has it' k = true) /\
    (dict_get it "daily_itineraries" = Some (VList []) ->
     dict_get it' "daily_itineraries" = Some (VList [])) /\
    (forall cb, dict_get it "cost_breakdown" = Some cb -> zeroed_cost_map cb ->
       exists cb', dict_get it' "cost_breakdown" = Some cb' /\ zeroed_cost_map cb') /\
    (dict_get it "total_estimated_cost" = Some (VInt 0) -> it' = it).
Proof.
  assert (Hsame : exists it', VDict it = VDict it' /\
    (forall k, dict_has it k = true -> dict_has it' k = true) /\
    (dict_get it "daily_itineraries" = Some (VList []) ->
     dict_get it' "daily_itineraries" = Some (VList [])) /\
    (forall cb, dict_get it "cost_breakdown" = Some cb -> zeroed_cost_map cb ->
       exists cb', dict_get it' "cost_breakdown" = Some cb' /\ zeroed_cost_map cb') /\
    (dict_get it "total_estimated_cost" = Some (VInt 0) -> it' = it)).
  { exists it. repeat split; auto. intros cb H Hz. now exists cb. }
  unfold _adjust_for_budget.
  destruct (py_gt _ budget) as [[|]|] eqn:Egt; try exact Hsame.
  destruct (py_div budget _) as [r|] eqn:Ediv; try exact Hsame.
  assert (Htot : dict_get it "total_estimated_cost" <> Some (VInt 0)).
  { intros H. unfold dict_get_default in Ediv. rewrite H in Ediv.
    unfold py_div in Ediv. destruct (num_of budget); discriminate. }
  clear Hsame Egt Ediv.
  (* the cost breakdown *)
  assert (H1 : exists it1 e1,
    (match dict_get it "cost_breakdown" with
     | None => done (VDict it)
     | Some cb =>
         let (cb', e) := adjust_cost_breakdown r cb in
         (store_back (VDict it) "cost_breakdown" cb', e)
     end) = (VDict it1, e1) /\
    (forall k, dict_has it k = true -> dict_has it1 k = true) /\
    (forall k, "cost_breakdown" <> k -> dict_get it1 k = dict_get it k) /\
    (forall cb, dict_get it "cost_breakdown" = Some cb -> zeroed_cost_map cb ->
       exists cb', dict_get it1 "cost_breakdown" = Some cb' /\ zeroed_cost_map cb')).
  { destruct (dict_get it "cost_breakdown") as [cb|] eqn:Ecb.
    - destruct (adjust_cost_breakdown r cb) as [cb' e] eqn:Eadj.
      destruct (store_back_dict it "cost_breakdown" cb') as (d' & -> & Hk & Ho & Hs & _).
      exists d', e. repeat split; auto.
      intros cb0 Hcb0 Hz. injection Hcb0 as <-.
      exists cb'. split.
      + apply Hs. unfold dict_has. now rewrite Ecb.
      + destruct Hz as (entries & -> & Hz). simpl in Eadj.
        injection Eadj as <- _. apply zeroed_cost_map_scaled.
        now exists entries.
    - exists it, None. repeat split; auto. discriminate. }
  destruct H1 as (it1 & e1 & -> & Hk1 & Ho1 & Hcb1).
  destruct e1 as [e|].
  { exists it1. repeat split; auto.
    - intros H. rewrite Ho1 by discriminate. exact H.
    - intros H. contradiction. }
  (* the days *)
  set (days := dict_get_default it1 "daily_itineraries" (VList [])).
  destruct (for_each (adjust_day r) days) as [days' e2] eqn:Edays.
  destruct (store_back_dict it1 "daily_itineraries" days')
    as (it2 & -> & Hk2 & Ho2 & Hs2 & Hn2).
  assert (Hdays : dict_get it "daily_itineraries" = Some (VList []) ->
                  dict_get it2 "daily_itineraries" = Some (VList [])).
  { intros H. assert (H' : dict_get it1 "daily_itineraries" = Some (VList [])).
    { rewrite Ho1 by discriminate. exact H. }
    unfold days, dict_get_default in Edays. rewrite H' in Edays.
    simpl in Edays. injection Edays as <- _.
    apply Hs2. unfold dict_has. now rewrite H'. }
  assert (Hcb2 : forall cb, dict_get it "cost_breakdown" = Some cb ->
            zeroed_cost_map cb ->
            exists cb', dict_get it2 "cost_breakdown" = Some cb' /\ zeroed_cost_map cb').
  { intros cb H Hz. destruct (Hcb1 cb H Hz) as (cb' & Hg & Hz').
    exists cb'. split; auto. rewrite Ho2 by discriminate. exact Hg. }
  destruct e2 as [e|].
  { exists it2. repeat split; auto. intros H. contradiction. }
  eexists. split; [reflexivity|]. repeat split.
  - intros k H. auto using dict_has_set.
  - intros H. rewrite !dict_get_set_other by discriminate. auto.
  - intros cb H Hz. rewrite !dict_get_set_other by discriminate. eauto.
  - intros H. contradiction.
Qed.

(** C4, as the code has it.  When the span handed to [json.loads] parses
    as a JSON object whose [total_estimated_cost] is a number or absent, and
    the request carries a numeric budget, [_parse_and_validate_response]
    returns a dictionary with the three required keys; a key missing from
    the parsed object holds its default: the empty list, a zeroed
    five-category cost map, and [0]. *)
Theorem parse_fills_required_fields
  (env : Env) (response_text : string) (trip_request d : dict)
  (budget : value) :
  json_loads env (json_span response_text) = Some (VDict d) ->
  dict_get trip_request "budget" = Some budget ->
  is_number budget = true ->
  is_number (dict_get_default d "total_estimated_cost" (VInt 0)) = true ->
  exists d',
    _parse_and_validate_response env response_text trip_request = Ok (VDict d') /\
    (dict_has d' "daily_itineraries" = true /\
     dict_has d' "cost_breakdown" = true /\
     dict_has d' "total_estimated_cost" = true) /\
    (dict_has d "daily_itineraries" = false ->
     dict_get d' "daily_itineraries" = Some (VList [])) /\
    (dict_has d "cost_breakdown" = false ->
     exists cb, dict_get d' "cost_breakdown" = Some cb /\ zeroed_cost_map cb) /\
    (dict_has d "total_estimated_cost" = false ->
     dict_get d' "total_estimated_cost" = Some (VInt 0)).
Proof.
  intros Hparse Hbudget Hnb Hnt.
  unfold _parse_and_validate_response. rewrite Hparse, fill_required_dict.
  set (d1 := with_default_field "total_estimated_cost"
               (with_default_field "cost_breakdown"
                  (with_default_field "daily_itineraries" d))).
  assert (Hk1 : dict_has d1 "daily_itineraries" = true).
  { unfold d1. do 2 apply with_default_field_has.
    apply with_default_field_has_same. }
  assert (Hk2 : dict_has d1 "cost_breakdown" = true).
  { unfold d1. apply with_default_field_has. apply with_default_field_has_same. }
  assert (Hk3 : dict_has d1 "total_estimated_cost" = true).
  { unfold d1. apply with_default_field_has_same. }
  assert (Hd1 : dict_has d "daily_itineraries" = false ->
                dict_get d1 "daily_itineraries" = Some (VList [])).
  { intros H. unfold d1. rewrite !with_default_field_get_other by discriminate.
    now apply with_default_field_get_missing. }
  assert (Hd2 : dict_has d "cost_breakdown" = false ->
                dict_get d1 "cost_breakdown" = Some (_get_default_value "cost_breakdown")).
  { intros H. unfold d1. rewrite with_default_field_get_other by discriminate.
    apply with_default_field_get_missing.
    unfold dict_has in *. now rewrite with_default_field_get_other by discriminate. }
  assert (Hd3 : dict_has d "total_estimated_cost" = false ->
                dict_get d1 "total_estimated_cost" = Some (VInt 0)).
  { intros H. unfold d1. apply with_default_field_get_missing.
    unfold dict_has in *.
    now rewrite !with_default_field_get_other by discriminate. }
  assert (Htotal : dict_get_default d1 "total_estimated_cost" (VInt 0)
                   = dict_get_default d "total_estimated_cost" (VInt 0)).
  { unfold dict_get_default.
    destruct (dict_has d "total_estimated_cost") eqn:E.
    - unfold d1, with_default_field at 1.
      assert (E' : dict_has (with_default_field "cost_breakdown"
                      (with_default_field "daily_itineraries" d))
                      "total_estimated_cost" = true)
        by now do 2 apply with_default_field_has.
      rewrite E'. now rewrite !with_default_field_get_other by discriminate.
    - rewrite (Hd3 eq_refl). clear Hd3. unfold dict_has in E.
      destruct (dict_get d "total_estimated_cost"); [discriminate|reflexivity]. }
  cbn [bind py_get]. unfold dict_getitem. rewrite Hbudget. cbn [bind].
  rewrite Htotal. unfold py_gt.
  unfold is_number in Hnb, Hnt.
  destruct (num_of budget) as [b|]; [|discriminate].
  destruct (num_of (dict_get_default d "total_estimated_cost" (VInt 0))) as [t|];
    [|discriminate].
  cbn [bind]. destruct (Qcgtb t b).
  - destruct (adjust_for_budget_keeps d1 budget)
      as (d' & -> & Hk & Hdays & Hcb & Hzero).
    exists d'. repeat split; auto.
    + intros H. apply Hcb with (cb := _get_default_value "cost_breakdown"); auto.
      apply zeroed_cost_map_default.
    + intros H. rewrite (Hzero (Hd3 H)). auto.
  - exists d1. repeat split; auto.
    intros H. exists (_get_default_value "cost_breakdown"). split; auto.
    apply zeroed_cost_map_default.
Qed.

Lemma parse_fills_required_fields_witness :
  exists d',
    _parse_and_validate_response sample_env text_empty_object goa_request
      = Ok (VDict d') /\
    (dict_has d' "daily_itineraries" = true /\
     dict_has d' "cost_breakdown" = true /\
     dict_has d' "total_estimated_cost" = true) /\
    (dict_has [] "daily_itineraries" = false ->
     dict_get d' "daily_itineraries" = Some (VList [])) /\
    (dict_has [] "cost_breakdown" = false ->
     exists cb, dict_get d' "cost_breakdown" = Some cb /\ zeroed_cost_map cb) /\
    (dict_has [] "total_estimated_cost" = false ->
     dict_get d' "total_estimated_cost" = Some (VInt 0)).
Proof.
  apply (parse_fills_required_fields sample_env text_empty_object goa_request []
           (VInt 30000)); reflexivity.
Defined.

(** C4 as stated fails: a text may parse as JSON and yet no dictionary comes
    back.  The text [42] is valid JSON, and so is an object whose total is
    the string ["12000"]; on both the function raises [TypeError]. *)
Lemma parse_raises_on_valid_json :
  (json_loads sample_env (json_span text_number) = Some (VInt 42) /\
   _parse_and_validate_response sample_env text_number goa_request
     = Raise TypeError) /\
  (json_loads sample_env (json_span text_string_total)
     = Some (VDict [("total_estimated_cost", VStr "12000")]) /\
   _parse_and_validate_response sample_env text_string_total goa_request
     = Raise TypeError).
Proof. repeat split; reflexivity. Qed.

End ParseFacts.

(* ------------------------------------------------------------------ *)
(** ** The fallback itinerary *)

Module FallbackFacts.
Import AIService Props Mut PyFacts.

Lemma qz_eq_zero (z : Z) : qz z = qz 0 -> z = 0.
Proof.
  unfold qz. intros H. apply Q2Qc_eq_iff in H.
  exact (proj1 (inject_Z_injective z 0) H).
Qed.

Lemma start_date_is_date (trip_request : dict) (today : Z) :
  (exists d, dict_get_default trip_request "start_date" (VDate d) = VDate d) ->
  exists d, dict_get_default trip_request "start_date" (VDate today) = VDate d.
Proof.
  unfold dict_get_default. intros (d & H).
  destruct (dict_get trip_request "start_date"); eauto.
Qed.

Lemma fallback_day_ok (env : Env) (trip_request : dict) (daily_budget : Qc) (day : Z) :
  (exists d, dict_get_default trip_request "start_date" (VDate d) = VDate d) ->
  exists v, fallback_day env trip_request daily_budget day = Ok v /\
            two_fixed_activities v.
Proof.
  intros Hstart.
  destruct (start_date_is_date trip_request (date_today env) Hstart) as (d & Hd).
  unfold fallback_day. rewrite Hd. cbn [shifted_date bind].
  eexists. split; [reflexivity|].
  do 3 eexists. split; [reflexivity|]. split; [reflexivity|].
  split; eexists; (split; [reflexivity|reflexivity]).
Qed.

Lemma map_result_all {A B : Type} (f : A -> result B) (P : B -> Prop) (l : list A) :
  (forall x, exists y, f x = Ok y /\ P y) ->
  exists ys, map_result f l = Ok ys /\
             List.length ys = List.length l /\ Forall P ys.
Proof.
  intros H. induction l as [|x l (ys & Hys & Hlen & HP)]; simpl.
  - exists []. repeat split. constructor.
  - destruct (H x) as (y & Hy & Py). rewrite Hy, Hys. simpl.
    exists (y :: ys). repeat split; [simpl; now rewrite Hlen|now constructor].
Qed.

(** On a well-formed request the fallback builder returns, and what it
    returns has the properties of the fallback payload. *)
Lemma create_fallback_itinerary_ok (env : Env) (trip_request : dict)
  (budget : value) (days : Z) :
  well_formed_request trip_request budget days ->
  exists payload,
    _create_fallback_itinerary env trip_request = Ok payload /\
    is_fallback_payload budget days payload.
Proof.
  intros (Hb & Hnum & Hdur & Hpos & Hstart).
  unfold _create_fallback_itinerary, dict_getitem. rewrite Hb, Hdur.
  cbn [bind]. unfold py_div, is_number in *.
  destruct (num_of budget) as [b|]; [|discriminate]. cbn [num_of].
  assert (Hz : Qceqb (qz days) (qz 0) = false).
  { destruct (Qceqb (qz days) (qz 0)) eqn:E; [|reflexivity].
    apply Qceqb_spec, qz_eq_zero in E. lia. }
  rewrite Hz. cbn [bind py_range].
  destruct (map_result_all
              (fallback_day env trip_request (b / qz days)%Qc)
              two_fixed_activities
              (map Z.of_nat (seq 0 (Z.to_nat days)))
              (fun day => fallback_day_ok env trip_request _ day Hstart))
    as (daily & -> & Hlen & Hall).
  cbn [bind]. eexists. split; [reflexivity|].
  eexists _, daily. split; [reflexivity|]. repeat split; auto.
  rewrite Hlen, length_map, length_seq. lia.
Qed.

(** *** What the enhancement keeps *)

Lemma and_then_keeps (P : value -> Prop) (f g : value -> upd value) :
  keeps P f -> keeps P g -> keeps P (and_then f g).
Proof.
  intros Hf Hg a Pa. unfold and_then.
  specialize (Hf a Pa). destruct (f a) as [a1 [e|]]; simpl in *; auto.
Qed.

Lemma each_keeps (P : value -> Prop) (f : value -> upd value) (l : list value) :
  keeps P f -> Forall P l ->
  Forall P (fst (each f l)) /\ List.length (fst (each f l)) = List.length l.
Proof.
  intros Hf. induction l as [|x l IH]; intros Hall; simpl.
  - split; [constructor|reflexivity].
  - inversion Hall as [|? ? Px Pl]; subst.
    specialize (Hf x Px). destruct (f x) as [x' [e|]]; simpl in *.
    + split; [now constructor|reflexivity].
    + destruct (IH Pl) as [IH1 IH2].
      destruct (each f l) as [l' e']; simpl in *.
      split; [now constructor|now rewrite IH2].
Qed.

Lemma set_key_dict (k : string) (x : value) (d : dict) :
  set_key k x (VDict d) = done (VDict (dict_set d k x)).
Proof. reflexivity. Qed.

Lemma enhance_activity_keeps_name (env : Env) (day : value) (n : string) :
  keeps (named_activity n) (enhance_activity env day).
Proof.
  intros a (d & -> & Hname). unfold enhance_activity.
  destruct (_ <- py_getitem day "day_number" ;; _) as [activity_id|e];
    [|simpl; now exists d].
  unfold and_then. rewrite set_key_dict. unfold done at 1.
  cbn [py_get]. rewrite set_key_dict. simpl.
  eexists. split; [reflexivity|].
  now rewrite !dict_get_set_other by discriminate.
Qed.

Lemma ensure_date_dict (env : Env) (trip_request d : dict) :
  exists d', fst (ensure_date env trip_request (VDict d)) = VDict d' /\
             dict_get d' "activities" = dict_get d "activities".
Proof.
  unfold ensure_date. cbn [py_contains].
  destruct (dict_has d "date"); [now exists d|].
  destruct (_ <- py_get (VDict d) "day_number" (VInt 1) ;; _) as [date|e];
    [|now exists d].
  rewrite set_key_dict. simpl. eexists. split; [reflexivity|].
  now rewrite dict_get_set_other by discriminate.
Qed.

Lemma enhance_day_keeps (env : Env) (trip_request : dict) :
  keeps two_fixed_activities (enhance_day env trip_request).
Proof.
  intros day (d & a1 & a2 & -> & Hacts & Hn1 & Hn2).
  unfold enhance_day, and_then.
  destruct (ensure_date_dict env trip_request d) as (d' & Hd' & Hacts').
  destruct (ensure_date env trip_request (VDict d)) as [day1 [e|]];
    simpl in Hd'; subst day1.
  - simpl. exists d', a1, a2. repeat split; auto. congruence.
  - rewrite Hacts in Hacts'. unfold py_get, dict_get_default. rewrite Hacts'.
    unfold for_each.
    pose proof (enhance_activity_keeps_name env (VDict d') "Morning Sightseeing" a1 Hn1) as K1.
    pose proof (enhance_activity_keeps_name env (VDict d') "Cultural Experience" a2 Hn2) as K2.
    cbn [each].
    destruct (enhance_activity env (VDict d') a1) as [a1' [e1|]]; simpl in K1.
    + simpl. unfold dict_has. rewrite Hacts'.
      eexists _, a1', a2. split; [reflexivity|].
      rewrite dict_get_set_same. auto.
    + destruct (enhance_activity env (VDict d') a2) as [a2' [e2|]]; simpl in K2;
        simpl; unfold dict_has; rewrite Hacts';
        (eexists _, a1', a2'; split; [reflexivity|]);
        rewrite dict_get_set_same; auto.
Qed.

Lemma set_key_keeps_payload (budget : value) (days : Z) (k : string) (x : value) :
  k <> "total_estimated_cost" -> k <> "fallback_mode" -> k <> "daily_itineraries" ->
  keeps (is_fallback_payload budget days) (set_key k x).
Proof.
  intros H1 H2 H3 a (fields & daily & -> & Ht & Hf & Hd & Hlen & Hall).
  rewrite set_key_dict. simpl.
  exists (dict_set fields k x), daily.
  rewrite !dict_get_set_other by assumption. auto 10.
Qed.

Lemma enhance_days_keeps_payload (env : Env) (trip_request : dict)
  (budget : value) (days : Z) :
  keeps (is_fallback_payload budget days) (enhance_days env trip_request).
Proof.
  intros a (fields & daily & -> & Ht & Hf & Hd & Hlen & Hall).
  unfold enhance_days, py_get, dict_get_default. rewrite Hd. unfold for_each.
  destruct (each_keeps two_fixed_activities (enhance_day env trip_request) daily
              (enhance_day_keeps env trip_request) Hall) as [Hall' Hlen'].
  destruct (each (enhance_day env trip_request) daily) as [daily' e].
  simpl in *. unfold dict_has. rewrite Hd.
  exists (dict_set fields "daily_itineraries" (VList daily')), daily'.
  rewrite dict_get_set_same, !dict_get_set_other by discriminate.
  rewrite Hlen'. auto 10.
Qed.

(** The enhancement keeps the properties of the fallback payload, whether
    or not it is interrupted. *)
Lemma enhance_keeps_fallback_payload (env : Env) (trip_request : dict)
  (budget : value) (days : Z) (payload : value) :
  is_fallback_payload budget days payload ->
  is_fallback_payload budget days
    (_enhance_itinerary_with_context env payload trip_request).
Proof.
  unfold _enhance_itinerary_with_context.
  apply and_then_keeps.
  { apply set_key_keeps_payload; discriminate. }
  apply and_then_keeps.
  { intros a Pa. unfold add_trip_metadata.
    destruct (dict_getitem trip_request "destination"); [|exact Pa].
    apply set_key_keeps_payload; auto; discriminate. }
  apply and_then_keeps.
  { apply set_key_keeps_payload; discriminate. }
  apply and_then_keeps.
  { apply set_key_keeps_payload; discriminate. }
  apply enhance_days_keeps_payload.
Qed.

(** On a well-formed request one attempt of [generate_itinerary] returns a
    payload with the fallback properties when the generation pipeline
    raises, and when the model's text does not parse. *)
Lemma attempt_falls_back (env : Env) (trip_request : dict)
  (budget : value) (days : Z) :
  well_formed_request trip_request budget days ->
  (forall e, generation_pipeline env trip_request = Raise e ->
     exists payload,
       generate_itinerary_attempt env trip_request = Ok payload /\
       is_fallback_payload budget days payload) /\
  (forall key prompt text,
     _generate_cache_key env trip_request = Ok key ->
     cached_response env key = None ->
     _create_enhanced_prompt env trip_request = Ok prompt ->
     generate_content env prompt = Ok text ->
     json_loads env (json_span text) = None ->
     exists payload,
       generate_itinerary_attempt env trip_request = Ok payload /\
       is_fallback_payload budget days payload).
Proof.
  intros Hwf.
  destruct (create_fallback_itinerary_ok env trip_request budget days Hwf)
    as (fallback & Hfb & Pfb).
  split.
  - intros e He. exists fallback. split; auto.
    unfold generate_itinerary_attempt, try_except. now rewrite He.
  - intros key prompt text Hkey Hcache Hprompt Htext Hjson.
    exists (_enhance_itinerary_with_context env fallback trip_request).
    pose proof (enhance_keeps_fallback_payload env trip_request budget days
                  fallback Pfb) as Penh.
    split; auto.
    unfold generate_itinerary_attempt, generation_pipeline.
    rewrite Hkey. cbn [bind]. rewrite Hcache.
    unfold generate_fresh.
    rewrite Hprompt. cbn [bind]. rewrite Htext. cbn [bind].
    unfold _parse_and_validate_response. rewrite Hjson, Hfb. cbn [bind].
    destruct Penh as (fields & daily & Heq & _). rewrite Heq.
    reflexivity.
Qed.

(** The fallback builder raises on a start date given as a string. *)
Lemma fallback_raises_on_string_start_date (env : Env) :
  _create_fallback_itinerary env frontend_request = Raise TypeError.
Proof. reflexivity. Qed.

End FallbackFacts.

(* ------------------------------------------------------------------ *)
(** ** Retries: [generate_itinerary] and [get_place_details] *)

Module RetryFacts.
Import AIService Props PyFacts Tenacity ExternalCalls.


Lemma retry_three_failures {A : Type} (body : nat -> result A) :
  (forall n, is_ok (body n) = false) ->
  retry 3 (wait_exponential 1 4 10) body = (three_attempts, Raise RetryError).
Proof.
  intros H. unfold retry. simpl.
  pose proof (H 1%nat) as H1. pose proof (H 2%nat) as H2. pose proof (H 3%nat) as H3.
  destruct (body 1%nat); [discriminate|].
  destruct (body 2%nat); [discriminate|].
  destruct (body 3%nat); [discriminate|].
  reflexivity.
Qed.



(** An attempt whose pipeline and whose fallback both raise, raises. *)
Lemma attempt_raises (env : Env) (trip_request : dict) (e e' : exn) :
  generation_pipeline env trip_request = Raise e ->
  _create_fallback_itinerary env trip_request = Raise e' ->
  generate_itinerary_attempt env trip_request = Raise e'.
Proof.
  intros Hp Hf. unfold generate_itinerary_attempt, try_except. now rewrite Hp.
Qed.

Lemma zero_day_attempt_raises (env : Env) :
  (forall key, cached_response env key = None) ->
  generate_itinerary_attempt env zero_day_request = Raise ZeroDivisionError.
Proof.
  intros Hcache.
  assert (Hp : exists e, generation_pipeline env zero_day_request = Raise e).
  { unfold generation_pipeline.
    destruct (_generate_cache_key env zero_day_request) as [key|e];
      cbn [bind]; eauto.
    rewrite Hcache. eexists. reflexivity. }
  destruct Hp as (e & Hp).
  now apply attempt_raises with (e := e).
Qed.

Lemma frontend_attempt_raises (env : Env) :
  (forall key, cached_response env key = None) ->
  (forall prompt, is_ok (generate_content env prompt) = false) ->
  generate_itinerary_attempt env frontend_request = Raise TypeError.
Proof.
  intros Hcache Hmodel.
  assert (Hp : exists e, generation_pipeline env frontend_request = Raise e).
  { unfold generation_pipeline.
    destruct (_generate_cache_key env frontend_request) as [key|e];
      cbn [bind]; eauto.
    rewrite Hcache. unfold generate_fresh.
    destruct (_create_enhanced_prompt env frontend_request) as [prompt|e];
      cbn [bind]; eauto.
    specialize (Hmodel prompt).
    destruct (generate_content env prompt); [discriminate|]. cbn [bind]. eauto. }
  destruct Hp as (e & Hp).
  now apply attempt_raises with (e := e).
Qed.

(** C3, the failing inputs.  For a request of zero days and without a cached
    answer, the division in the prompt builder raises, the handler's
    fallback builder divides by the same zero, and the error leaves
    [generate_itinerary]: three attempts, then [RetryError].  For the request
    the trip-planner page builds, whose start date is a string, a failed
    model call ends the same way: the fallback builder cannot add days to a
    string. *)
Theorem generate_itinerary_propagates_fallback_errors (envs : nat -> Env) :
  (forall n key, cached_response (envs n) key = None) ->
  (generate_itinerary_attempt (envs 1%nat) zero_day_request
     = Raise ZeroDivisionError /\
   generate_itinerary envs zero_day_request
     = (three_attempts, Raise RetryError)) /\
  ((forall n prompt, is_ok (generate_content (envs n) prompt) = false) ->
   generate_itinerary_attempt (envs 1%nat) frontend_request = Raise TypeError /\
   generate_itinerary envs frontend_request
     = (three_attempts, Raise RetryError)).
Proof.
  intros Hcache. split; [split|intros Hmodel; split].
  - apply zero_day_attempt_raises. apply Hcache.
  - unfold generate_itinerary. apply retry_three_failures.
    intros n. rewrite zero_day_attempt_raises by apply Hcache. reflexivity.
  - apply frontend_attempt_raises; [apply Hcache|apply Hmodel].
  - unfold generate_itinerary. apply retry_three_failures.
    intros n. rewrite frontend_attempt_raises; [reflexivity|apply Hcache|apply Hmodel].
Qed.

Lemma generate_itinerary_propagates_fallback_errors_witness :
  generate_itinerary (fun _ => offline_env) zero_day_request
    = (three_attempts, Raise RetryError) /\
  generate_itinerary (fun _ => offline_env) frontend_request
    = (three_attempts, Raise RetryError).
Proof.
  destruct (generate_itinerary_propagates_fallback_errors (fun _ => offline_env))
    as [[_ Hzero] Hfrontend].
  - reflexivity.
  - split; [exact Hzero|]. apply Hfrontend. reflexivity.
Defined.



End RetryFacts.

(* ------------------------------------------------------------------ *)
(** ** Route optimisation *)

Module RouteFacts.
Import ItineraryService Props PyFacts.

Section Remove.
Context {A : Type} (eqb : A -> A -> bool).
Hypothesis eqb_refl : forall a, eqb a a = true.

Lemma list_remove_head (x : A) (l : list A) :
  list_remove eqb x (x :: l) = Some l.
Proof. simpl. now rewrite eqb_refl. Qed.

End Remove.

Lemma list_remove_length {A : Type} (eqb : A -> A -> bool) (x : A) (l l' : list A) :
  list_remove eqb x l = Some l' -> List.length l = S (List.length l').
Proof.
  revert l'. induction l as [|y l IH]; intros l'; simpl; [discriminate|].
  destruct (eqb y x).
  - now intros [= <-].
  - destruct (list_remove eqb x l) as [r|]; simpl; [|discriminate].
    intros [= <-]. simpl. f_equal. now apply IH.
Qed.

(** The loop never stops for lack of rounds: any number of rounds from
    [length remaining] on gives the same result. *)
Lemma nearest_neighbor_rounds (eqb : Activity -> Activity -> bool) (matrix : value) :
  forall rounds rounds' optimized remaining,
    (List.length remaining <= rounds)%nat ->
    (List.length remaining <= rounds')%nat ->
    nearest_neighbor eqb matrix rounds optimized remaining
      = nearest_neighbor eqb matrix rounds' optimized remaining.
Proof.
  induction rounds as [|rounds IH]; intros rounds' optimized remaining H H';
    destruct remaining as [|first others]; destruct rounds';
    try reflexivity; try (simpl in H, H'; lia).
  cbn [nearest_neighbor].
  destruct (last_item optimized) as [current|]; [|reflexivity].
  destruct (list_remove eqb _ (first :: others)) as [remaining'|] eqn:E;
    [|reflexivity].
  apply list_remove_length in E. simpl in H, H', E.
  apply IH; lia.
Qed.

Lemma min_by_constant_key {A : Type} (c : Qc) (best : A) (rest : list A) :
  min_by_key (fun _ => c) best rest = best.
Proof.
  induction rest as [|x rest IH]; simpl; [reflexivity|].
  assert (H : Qcgtb c c = false).
  { destruct (Qcgtb c c) eqn:E; [|reflexivity].
    apply Qcgtb_spec in E. exfalso. now apply (Qclt_not_eq _ _ E). }
  now rewrite H.
Qed.

Lemma last_item_app {A : Type} (l : list A) (x : A) :
  last_item (l ++ [x]) = Some x.
Proof.
  unfold last_item. rewrite map_app. simpl. apply last_last.
Qed.

Lemma nearest_neighbor_keeps_order (eqb : Activity -> Activity -> bool)
  (matrix : value) :
  (forall a, eqb a a = true) ->
  forall remaining rounds optimized current,
    (List.length remaining <= rounds)%nat ->
    nearest_neighbor eqb matrix rounds (optimized ++ [current]) remaining
      = Ok ((optimized ++ [current]) ++ remaining)%list.
Proof.
  intros Hrefl. induction remaining as [|first others IH];
    intros rounds optimized current Hlen.
  - destruct rounds; cbn [nearest_neighbor]; now rewrite app_nil_r.
  - destruct rounds as [|rounds]; [simpl in Hlen; lia|].
    cbn [nearest_neighbor]. rewrite last_item_app.
    unfold _get_distance. rewrite min_by_constant_key.
    cbn [list_remove]. rewrite Hrefl.
    rewrite (IH rounds (optimized ++ [current])%list first) by (simpl in Hlen; lia).
    now rewrite <- !app_assoc.
Qed.

Lemma get_optimal_route_keeps_order (eqb : Activity -> Activity -> bool)
  (env : Env) (activities : list Activity) :
  (forall a, eqb a a = true) ->
  _get_optimal_route eqb env activities = activities.
Proof.
  intros Hrefl. unfold _get_optimal_route.
  destruct (List.length activities <=? 2)%nat; [reflexivity|].
  destruct (List.length (addresses activities) <? List.length activities)%nat;
    [reflexivity|].
  destruct (distance_matrix env _ _) as [matrix|e]; cbn [bind]; [|reflexivity].
  destruct activities as [|first remaining]; [reflexivity|].
  pose proof (nearest_neighbor_keeps_order eqb matrix Hrefl remaining
                (List.length remaining) [] first (le_n _)) as H.
  cbn [app] in H. now rewrite H.
Qed.

Lemma optimize_routes_keeps_order (eqb : Activity -> Activity -> bool)
  (env : Env) (calculate_transport : list Activity -> result (list value))
  (days : list DayItinerary) :
  (forall a, eqb a a = true) ->
  map activities (_optimize_routes eqb env calculate_transport days)
    = map activities days.
Proof.
  intros Hrefl. induction days as [|day rest IH]; [reflexivity|].
  cbn [_optimize_routes].
  destruct (1 <? List.length (activities day))%nat; [|cbn [map]; now rewrite IH].
  rewrite get_optimal_route_keeps_order by exact Hrefl.
  set (day1 := match activities day with
               | [] => day
               | _ :: _ => set_activities day (activities day)
               end).
  assert (Hday : activities day1 = activities day).
  { unfold day1. destruct (activities day) eqn:E; [exact E|reflexivity]. }
  destruct (calculate_transport (activities day1)); cbn [map].
  - unfold extend_transport at 1. cbn [activities]. now rewrite Hday, IH.
  - now rewrite Hday.
Qed.

(** C2.  [_get_distance] is the constant [1.0], so [min] picks the first of
    the remaining activities each time and [_get_optimal_route] returns the
    activities in their original order; so does every early return and the
    exception handler.  [_optimize_routes] therefore leaves the order of each
    day's activities as it was.  ([list.remove] finds the item it is given:
    the comparison it uses is reflexive.) *)
Theorem get_optimal_route_is_identity (eqb : Activity -> Activity -> bool) :
  (forall a, eqb a a = true) ->
  (forall a b matrix, _get_distance a b matrix = qz 1) /\
  (forall current matrix first others,
     min_by_key (fun x => _get_distance current x matrix) first others = first) /\
  (forall env activities, _get_optimal_route eqb env activities = activities) /\
  (forall env calculate_transport days,
     map activities (_optimize_routes eqb env calculate_transport days)
       = map activities days).
Proof.
  intros Hrefl. repeat split.
  - intros. apply (min_by_constant_key (qz 1)).
  - intros. now apply get_optimal_route_keeps_order.
  - intros. now apply optimize_routes_keeps_order.
Qed.

Lemma get_optimal_route_is_identity_witness :
  _get_optimal_route same_name sample_env three_activities = three_activities.
Proof.
  refine (proj1 (proj2 (proj2
    (get_optimal_route_is_identity same_name _))) sample_env three_activities).
  intros a. apply String.eqb_refl.
Defined.

End RouteFacts.

(* ------------------------------------------------------------------ *)
(** ** Trip requests and date validation *)

Module TripFacts.
Import Trip Props PyFacts.

Lemma as_list_enum (allowed l : list string) :
  forallb (member allowed) l = true ->
  as_list (as_enum allowed) (VList (map VStr l)) = Ok l.
Proof.
  unfold as_list. induction l as [|x l IH]; simpl; [reflexivity|].
  intros H. apply andb_prop in H as [Hx Hl].
  rewrite Hx. simpl. rewrite (IH Hl). reflexivity.
Qed.

(** C6.  The constructor checks presence and types only: with a destination,
    two dates, a budget and known themes it accepts the request whatever the
    order of the two dates and the sign of the budget. *)
Theorem TripRequest_accepts_any_dates_and_budget
  (dest : string) (start finish : Z) (b : Qc) (ths : list string) :
  forallb (member TripTheme) ths = true ->
  TripRequest_init
    [ ("destination", VStr dest); ("start_date", VDate start);
      ("end_date", VDate finish); ("budget", VFloat b);
      ("themes", VList (map VStr ths)) ]
  = Ok {| destination := dest;
          start_date := start;
          end_date := finish;
          budget := b;
          travelers_count := 1;
          themes := ths;
          accommodation_preference := None;
          transport_preference := None;
          dietary_restrictions := None;
          special_requirements := None;
          language_preference := "en";
          include_flights := true;
          flexible_dates := false |}.
Proof.
  intros Hths. unfold TripRequest_init, required, with_default, optional.
  simpl dict_get. cbn [bind as_str as_date as_float].
  rewrite (as_list_enum TripTheme ths Hths). reflexivity.
Qed.

Lemma TripRequest_accepts_any_dates_and_budget_witness :
  exists req,
    TripRequest_init
      [ ("destination", VStr "Goa"); ("start_date", VDate 739020);
        ("end_date", VDate 739010); ("budget", VFloat (qz (-100)));
        ("themes", VList (map VStr ["heritage"; "foodie"])) ] = Ok req /\
    end_date req < start_date req /\
    (budget req < qz 0)%Qc.
Proof.
  eexists. split.
  - apply (TripRequest_accepts_any_dates_and_budget
             "Goa" 739020 739010 (qz (-100)) ["heritage"; "foodie"]).
    reflexivity.
  - split; reflexivity.
Defined.

(** C9.  [validate_dates] raises [ValueError] exactly when the start date is
    on or after the end date and returns [True] otherwise.  A same-day trip
    is rejected, although [_structure_itinerary] would give it a duration of
    one day. *)
Theorem validate_dates_rejects_same_day (req : TripRequest) :
  (validate_dates req = Raise ValueError <-> start_date req >= end_date req) /\
  (validate_dates req = Ok true <-> start_date req < end_date req) /\
  (start_date req = end_date req ->
   validate_dates req = Raise ValueError /\ structured_duration_days req = 1).
Proof.
  unfold validate_dates, structured_duration_days.
  destruct (start_date req >=? end_date req) eqn:E.
  - apply Z.geb_le in E. repeat split; try discriminate; try lia; auto.
  - assert (start_date req < end_date req).
    { destruct (Z.lt_ge_cases (start_date req) (end_date req)) as [H|H]; auto.
      apply Z.geb_le in H. congruence. }
    repeat split; try discriminate; try lia; auto.
Qed.

End TripFacts.

(* ------------------------------------------------------------------ *)
(** ** The chat endpoint *)

Module RoutesFacts.
Import Routes.


End RoutesFacts.

(* ------------------------------------------------------------------ *)
(** ** Bookings *)

Module BookingFacts.
Import BookingService Props PyFacts.

(** C7.  [_create_emt_booking] answers every item with status
    ["confirmed"] and a confirmation code made of the prefix the booking
    type selects and the first eight hexadecimal digits, in upper case, of a
    UUID drawn for it; the prefix is [FL-], [HT-], [TR-], [BS-], [CB-],
    [AC-] or [EMT-].  No request is sent. *)
Theorem create_emt_booking_is_mock (item_data : dict) (w : World) :
  (let (booking, w') := _create_emt_booking item_data w in
   dict_get booking "status" = Some (VStr "confirmed") /\
   dict_get booking "confirmation_code" =
     Some (VStr (spec_code_prefix item_data ++
                 str_upper (String.substring 0 8 (uuid_hex w (uuids_drawn w))))) /\
   (uuids_drawn w < uuids_drawn w')%nat /\
   uuid_hex w' = uuid_hex w /\
   requests_sent w' = requests_sent w) /\
  (forall rest,
     spec_code_prefix (("type", VStr "flight") :: rest) = "FL-" /\
     spec_code_prefix (("type", VStr "hotel") :: rest) = "HT-" /\
     spec_code_prefix (("type", VStr "transport") :: ("transport_type", VStr "train") :: rest) = "TR-" /\
     spec_code_prefix (("type", VStr "transport") :: ("transport_type", VStr "bus") :: rest) = "BS-" /\
     spec_code_prefix (("type", VStr "transport") :: ("transport_type", VStr "cab") :: rest) = "CB-" /\
     spec_code_prefix [("type", VStr "transport")] = "CB-" /\
     spec_code_prefix (("type", VStr "activity") :: rest) = "AC-" /\
     spec_code_prefix (("type", VStr "package") :: rest) = "EMT-" /\
     spec_code_prefix [] = "EMT-").
Proof.
  split; [|intros rest; repeat split].
  unfold _create_emt_booking, spec_code_prefix, _book_transport.
  destruct (is_str _ "flight"); [cbn; repeat split; lia|].
  destruct (is_str _ "hotel"); [cbn; repeat split; lia|].
  destruct (is_str _ "transport").
  { destruct (is_str _ "train"); [cbn; repeat split; lia|].
    destruct (is_str _ "bus"); cbn; repeat split; lia. }
  destruct (is_str _ "activity"); cbn; repeat split; lia.
Qed.










End BookingFacts.

(* ------------------------------------------------------------------ *)
(** ** Further properties of the response parser *)

Module SpanFacts.
Import AIService Props Measures PyFacts.

Lemma str_find_bounds (c : ascii) (s : string) :
  str_find c s = -1 \/ 0 <= str_find c s < Z.of_nat (String.length s).
Proof.
  induction s as [|a s IH]; simpl; [now left|].
  destruct (Ascii.eqb a c); [right; lia|].
  destruct (str_find c s <? 0) eqn:E.
  - now left.
  - apply Z.ltb_ge in E. right. lia.
Qed.

Lemma str_rfind_bounds (c : ascii) (s : string) :
  str_rfind c s = -1 \/ 0 <= str_rfind c s < Z.of_nat (String.length s).
Proof.
  induction s as [|a s IH]; simpl; [now left|].
  destruct (0 <=? str_rfind c s) eqn:E.
  - apply Z.leb_le in E. right. lia.
  - destruct (Ascii.eqb a c); [right; lia|now left].
Qed.

Lemma str_find_app (c : ascii) (prose rest : string) :
  absent c prose ->
  str_find c (prose ++ String c rest) = Z.of_nat (String.length prose).
Proof.
  unfold absent. induction prose as [|a prose IH]; simpl.
  - intros _. now rewrite Ascii.eqb_refl.
  - destruct (Ascii.eqb a c); [discriminate|].
    destruct (str_find c prose <? 0) eqn:E.
    + intros _.
      assert (H : str_find c prose = -1).
      { destruct (str_find_bounds c prose) as [H|H]; auto.
        apply Z.ltb_lt in E. lia. }
      rewrite (IH H).
      destruct (Z.of_nat (String.length prose) <? 0) eqn:E'; [|lia].
      apply Z.ltb_lt in E'. lia.
    + intros H. apply Z.ltb_ge in E. lia.
Qed.

Lemma str_rfind_app (c : ascii) (s trailer : string) :
  str_rfind c trailer = -1 ->
  str_rfind c (s ++ String c trailer) = Z.of_nat (String.length s).
Proof.
  intros Ht. induction s as [|a s IH]; simpl.
  - rewrite Ht. simpl. now rewrite Ascii.eqb_refl.
  - rewrite IH.
    destruct (0 <=? Z.of_nat (String.length s)) eqn:E; [lia|].
    apply Z.leb_gt in E. lia.
Qed.

Lemma substring_skip (prose s : string) (n : nat) :
  String.substring (String.length prose) n (prose ++ s) = String.substring 0 n s.
Proof. induction prose as [|a prose IH]; simpl; auto. Qed.

Lemma substring_prefix (s t : string) :
  String.substring 0 (String.length s) (s ++ t) = s.
Proof.
  induction s as [|a s IH]; simpl.
  - destruct t; reflexivity.
  - now rewrite IH.
Qed.

Lemma length_append (s t : string) :
  String.length (s ++ t) = (String.length s + String.length t)%nat.
Proof. induction s as [|a s IH]; simpl; auto. Qed.

Lemma append_assoc (s t u : string) : ((s ++ t) ++ u = s ++ (t ++ u))%string.
Proof. induction s as [|a s IH]; simpl; [reflexivity|now rewrite IH]. Qed.

(** X1: The span handed to [json.loads] is the object itself when the model
    wraps it in prose: text before the first opening brace and after the last
    closing brace is dropped. *)
Theorem json_span_drops_surrounding_prose (prose body trailer : string) :
  absent "{"%char prose ->
  str_rfind "}"%char trailer = -1 ->
  json_span (prose ++ "{" ++ body ++ "}" ++ trailer) = "{" ++ body ++ "}".
Proof.
  intros Hp Ht. unfold json_span.
  change ("{" ++ body ++ "}" ++ trailer)
    with (String "{"%char (body ++ String "}"%char trailer)).
  rewrite (str_find_app "{"%char prose _ Hp).
  assert (Hr : str_rfind "}"%char
                 (prose ++ String "{"%char (body ++ String "}"%char trailer))
               = Z.of_nat (String.length (prose ++ String "{"%char body))).
  { rewrite <- (str_rfind_app "}"%char (prose ++ String "{"%char body) trailer Ht).
    f_equal. rewrite append_assoc. reflexivity. }
  rewrite Hr, length_append. simpl String.length.
  destruct (Z.of_nat (String.length prose) =? -1) eqn:E1;
    [apply Z.eqb_eq in E1; lia|].
  destruct (Z.of_nat (String.length prose + S (String.length body)) + 1 =? 0) eqn:E2;
    [apply Z.eqb_eq in E2; lia|].
  simpl negb. simpl andb. unfold str_slice.
  destruct (Z.of_nat (String.length prose + S (String.length body)) + 1
            <=? Z.of_nat (String.length prose)) eqn:E3;
    [apply Z.leb_le in E3; lia|].
  rewrite Nat2Z.id.
  replace (Z.to_nat (Z.of_nat (String.length prose + S (String.length body)) + 1
                     - Z.of_nat (String.length prose)))
    with (String.length ("{" ++ body ++ "}")).
  - rewrite substring_skip.
    replace (String "{"%char (body ++ String "}"%char trailer))
      with (("{" ++ body ++ "}") ++ trailer)
      by (simpl; now rewrite append_assoc).
    apply substring_prefix.
  - rewrite !length_append. simpl. lia.
Qed.

Lemma json_span_drops_surrounding_prose_witness :
  json_span ("Here is your plan: " ++ "{" ++ "" ++ "}" ++ " Enjoy!") = "{" ++ "" ++ "}".
Proof.
  apply (json_span_drops_surrounding_prose "Here is your plan: " "" " Enjoy!");
    reflexivity.
Defined.

End SpanFacts.

(* ------------------------------------------------------------------ *)
(** ** Further properties of budget validation *)

Module BudgetFacts.
Import AIService Props Measures Mut PyFacts AdjustFacts ParseFacts.


Lemma create_fallback_inversion (env : Env) (trip_request : dict) (payload : value) :
  _create_fallback_itinerary env trip_request = Ok payload ->
  exists budget daily,
    dict_get trip_request "budget" = Some budget /\
    payload = VDict
      [ ("daily_itineraries", VList daily);
        ("total_estimated_cost", budget);
        ("fallback_mode", VBool true);
        ("message", VStr "This is a basic itinerary. Please refine your preferences for a more detailed plan.") ].
Proof.
  unfold _create_fallback_itinerary, dict_getitem.
  destruct (dict_get trip_request "budget") as [budget|]; [|discriminate].
  cbn [bind].
  destruct (py_div budget _) as [q|]; [|discriminate]. cbn [bind].
  destruct (py_range _) as [days|]; [|discriminate]. cbn [bind].
  destruct (map_result _ days) as [daily|]; [|discriminate]. cbn [bind].
  intros [= <-]. now exists budget, daily.
Qed.

(** X2: When the model's text does not parse, [_parse_and_validate_response]
    returns the fallback payload: its total is the request's budget, it
    carries [fallback_mode], and it has no [cost_breakdown]: the required
    fields are not filled in on this path. *)
Theorem unparseable_response_yields_fallback
  (env : Env) (response_text : string) (trip_request : dict) (payload : value) :
  json_loads env (json_span response_text) = None ->
  _parse_and_validate_response env response_text trip_request = Ok payload ->
  exists fields budget,
    payload = VDict fields /\
    dict_get trip_request "budget" = Some budget /\
    dict_get fields "total_estimated_cost" = Some budget /\
    dict_get fields "fallback_mode" = Some (VBool true) /\
    dict_has fields "cost_breakdown" = false.
Proof.
  intros Hjson. unfold _parse_and_validate_response. rewrite Hjson.
  intros H. apply create_fallback_inversion in H as (budget & daily & Hb & ->).
  eexists _, budget. repeat split; auto.
Qed.

Lemma unparseable_response_yields_fallback_witness :
  exists payload fields,
    _parse_and_validate_response sample_env text_apology goa_request = Ok payload /\
    payload = VDict fields /\
    dict_get fields "total_estimated_cost" = Some (VInt 30000) /\
    dict_has fields "cost_breakdown" = false.
Proof.
  destruct (_parse_and_validate_response sample_env text_apology goa_request)
    as [payload|e] eqn:E; [|discriminate E].
  destruct (unparseable_response_yields_fallback sample_env text_apology
              goa_request payload eq_refl E)
    as (fields & budget & Hp & Hb & Ht & _ & Hc).
  exists payload, fields. repeat split; auto.
  injection Hb as <-. exact Ht.
Defined.












(** X6: Whatever the itinerary and the budget, [_adjust_for_budget] rewrites the
    total only together with the [budget_adjusted] flag: either the total is
    the budget and the flag is set, or both are as they were (also when the
    rescaling was interrupted half way). *)
Theorem total_rewritten_only_with_flag (it : dict) (budget : value) :
  exists it',
    _adjust_for_budget (VDict it) budget = VDict it' /\
    ((dict_get it' "total_estimated_cost" = Some budget /\
      dict_get it' "budget_adjusted" = Some (VBool true)) \/
     (dict_get it' "total_estimated_cost" = dict_get it "total_estimated_cost" /\
      dict_get it' "budget_adjusted" = dict_get it "budget_adjusted")).
Proof.
  assert (Hsame : exists it', VDict it = VDict it' /\
    ((dict_get it' "total_estimated_cost" = Some budget /\
      dict_get it' "budget_adjusted" = Some (VBool true)) \/
     (dict_get it' "total_estimated_cost" = dict_get it "total_estimated_cost" /\
      dict_get it' "budget_adjusted" = dict_get it "budget_adjusted")))
    by (exists it; auto).
  unfold _adjust_for_budget.
  destruct (py_gt _ budget) as [[|]|]; try exact Hsame.
  destruct (py_div budget _) as [r|]; try exact Hsame.
  clear Hsame.
  assert (H1 : exists it1 e1,
    (match dict_get it "cost_breakdown" with
     | None => done (VDict it)
     | Some cb =>
         let (cb', e) := adjust_cost_breakdown r cb in
         (store_back (VDict it) "cost_breakdown" cb', e)
     end) = (VDict it1, e1) /\
    (forall k, "cost_breakdown" <> k -> dict_get it1 k = dict_get it k)).
  { destruct (dict_get it "cost_breakdown") as [cb|].
    - destruct (adjust_cost_breakdown r cb) as [cb' e].
      destruct (store_back_dict it "cost_breakdown" cb') as (d' & -> & _ & Ho & _).
      now exists d', e.
    - now exists it, None. }
  destruct H1 as (it1 & e1 & -> & Ho1).
  destruct e1 as [e|].
  { exists it1. split; auto. right. split; apply Ho1; discriminate. }
  destruct (for_each (adjust_day r) _) as [days' e2].
  destruct (store_back_dict it1 "daily_itineraries" days')
    as (it2 & -> & _ & Ho2 & _).
  destruct e2 as [e|].
  - exists it2. split; auto. right.
    split; (rewrite Ho2 by discriminate; apply Ho1; discriminate).
  - eexists. split; [reflexivity|]. left. split.
    + rewrite dict_get_set_other by discriminate. apply dict_get_set_same.
    + apply dict_get_set_same.
Qed.

End BudgetFacts.

(* ------------------------------------------------------------------ *)
(** ** Further properties of the fallback, the enhancement and the cache *)

Module PipelineFacts.
Import AIService Props Measures Mut PyFacts FallbackFacts.










(** *** The enhancement *)

Lemma set_key_keeps_field (k k' : string) (x : option value) (v : value) :
  k' <> k -> keeps (holds_field k x) (set_key k' v).
Proof.
  intros Hne a (d & -> & H). rewrite set_key_dict.
  exists (dict_set d k' v). split; [reflexivity|].
  now rewrite dict_get_set_other.
Qed.

Lemma store_back_keeps_field (k k' : string) (x : option value) (d : dict)
  (v : value) :
  k' <> k -> dict_get d k = x -> holds_field k x (store_back (VDict d) k' v).
Proof.
  intros Hne H. unfold store_back. destruct (dict_has d k').
  - eexists. split; [reflexivity|]. now rewrite dict_get_set_other.
  - now exists d.
Qed.

Lemma enhance_days_keeps_field (env : Env) (trip_request : dict) (k : string)
  (x : option value) :
  "daily_itineraries" <> k ->
  keeps (holds_field k x) (enhance_days env trip_request).
Proof.
  intros Hne a (d & -> & H). unfold enhance_days. cbn [py_get].
  destruct (for_each _ _) as [days' e]. cbn [fst].
  now apply store_back_keeps_field.
Qed.

Lemma enhancement_steps_keep_field (env : Env) (trip_request : dict) (k : string)
  (x : option value) :
  k <> "trip_metadata" -> k <> "booking_ready" ->
  k <> "requires_confirmation" -> k <> "daily_itineraries" ->
  keeps (holds_field k x)
    (and_then (add_trip_metadata env trip_request)
       (and_then (set_key "booking_ready" (VBool true))
          (and_then (set_key "requires_confirmation" (VList []))
             (enhance_days env trip_request)))).
Proof.
  intros H1 H2 H3 H4.
  apply and_then_keeps.
  { intros a Pa. unfold add_trip_metadata.
    destruct (dict_getitem trip_request "destination"); [|exact Pa].
    apply set_key_keeps_field; auto. }
  apply and_then_keeps; [apply set_key_keeps_field; auto|].
  apply and_then_keeps; [apply set_key_keeps_field; auto|].
  apply enhance_days_keeps_field; auto.
Qed.

(** X9: The enhancement owns five keys.  On a dictionary it always records
    [metadata], and every other field of the itinerary comes out as it went
    in, whether or not a later step is interrupted. *)
Theorem enhancement_keeps_other_fields
  (env : Env) (it trip_request : dict) (k : string) :
  ~ In k enhancement_keys ->
  exists it',
    _enhance_itinerary_with_context env (VDict it) trip_request = VDict it' /\
    dict_get it' k = dict_get it k /\
    dict_has it' "metadata" = true.
Proof.
  intros Hk. unfold enhancement_keys in Hk. simpl in Hk.
  assert (Hm : k <> "metadata") by intuition congruence.
  assert (H1 : k <> "trip_metadata") by intuition congruence.
  assert (H2 : k <> "booking_ready") by intuition congruence.
  assert (H3 : k <> "requires_confirmation") by intuition congruence.
  assert (H4 : k <> "daily_itineraries") by intuition congruence.
  unfold _enhance_itinerary_with_context, and_then at 1, add_metadata.
  rewrite set_key_dict. unfold done at 1.
  set (it0 := dict_set it "metadata" _).
  set (steps := and_then (add_trip_metadata env trip_request) _).
  destruct (enhancement_steps_keep_field env trip_request k (dict_get it k)
              H1 H2 H3 H4 (VDict it0)) as (d & Hd & Hget).
  { exists it0. split; [reflexivity|]. unfold it0.
    apply dict_get_set_other. congruence. }
  destruct (enhancement_steps_keep_field env trip_request "metadata"
              (dict_get it0 "metadata")
              ltac:(discriminate) ltac:(discriminate) ltac:(discriminate)
              ltac:(discriminate) (VDict it0)) as (d' & Hd' & Hget').
  { now exists it0. }
  fold steps in Hd, Hd'. exists d. split; [exact Hd|]. split; [exact Hget|].
  rewrite Hd in Hd'. injection Hd' as <-.
  unfold dict_has. rewrite Hget'. unfold it0. now rewrite dict_get_set_same.
Qed.

Lemma enhancement_keeps_other_fields_witness :
  exists it',
    _enhance_itinerary_with_context sample_env (VDict meal_itinerary) goa_request
      = VDict it' /\
    dict_get it' "total_estimated_cost" = Some (VInt 2000) /\
    dict_has it' "metadata" = true.
Proof.
  apply (enhancement_keeps_other_fields sample_env meal_itinerary goa_request
           "total_estimated_cost").
  unfold enhancement_keys. simpl. intuition discriminate.
Defined.

(** *** The cache *)

Lemma cache_key_same_fields (env : Env) (r1 r2 : dict) :
  same_cache_fields r1 r2 ->
  _generate_cache_key env r2 = _generate_cache_key env r1.
Proof.
  intros (Hd & Hb & Hn & Ht).
  unfold _generate_cache_key, dict_get_default.
  now rewrite Hd, Hb, Hn, Ht.
Qed.

(** X10: The cache key is made of the destination, the budget, the duration and
    the themes only.  A plan cached for one request is therefore the answer
    to every request that agrees with it on these four fields, whatever its
    dates and its number of travelers; no generation takes place. *)
Theorem cached_plan_served_across_requests
  (env : Env) (r1 r2 : dict) (key : string) (plan : value) :
  same_cache_fields r1 r2 ->
  _generate_cache_key env r1 = Ok key ->
  cached_response env key = Some plan ->
  py_truthy plan = true ->
  generate_itinerary_attempt env r2 = Ok plan.
Proof.
  intros Hsame Hkey Hcache Htruthy.
  unfold generate_itinerary_attempt, generation_pipeline.
  rewrite (cache_key_same_fields env r1 r2 Hsame), Hkey. cbn [bind].
  now rewrite Hcache, Htruthy.
Qed.

Lemma cached_plan_served_across_requests_witness :
  generate_itinerary_attempt caching_env goa_request_later = Ok cached_plan.
Proof.
  apply (cached_plan_served_across_requests caching_env goa_request
           goa_request_later "itinerary:Goa_30000_3_" cached_plan);
    try reflexivity.
  repeat split.
Defined.

End PipelineFacts.

(* ------------------------------------------------------------------ *)
(** ** Conversation history *)

Module ConversationFacts.
Import AIService Conversations.

Lemma history_get_set_same (store : history_store) (k : string) (h : list value) :
  history_get (history_set store k h) k = Some h.
Proof.
  induction store as [|[k0 h0] rest IH]; simpl.
  - now rewrite String.eqb_refl.
  - destruct (String.eqb k k0) eqn:E; simpl; rewrite E; [reflexivity | exact IH].
Qed.

Lemma history_get_set_other (store : history_store) (k k' : string)
  (h : list value) :
  k' <> k -> history_get (history_set store k h) k' = history_get store k'.
Proof.
  intros Hne.
  induction store as [|[k0 h0] rest IH]; simpl.
  - destruct (String.eqb k' k) eqn:E; [|reflexivity].
    apply String.eqb_eq in E. contradiction.
  - destruct (String.eqb k k0) eqn:E; simpl.
    + apply String.eqb_eq in E. subst k0.
      destruct (String.eqb k' k) eqn:E'; [|reflexivity].
      apply String.eqb_eq in E'. contradiction.
    + destruct (String.eqb k' k0); [reflexivity | exact IH].
Qed.

Lemma last_n_length {A : Type} (n : nat) (l : list A) :
  (List.length (last_n n l) <= n)%nat.
Proof.
  unfold last_n. rewrite List.length_skipn. lia.
Qed.

Lemma last_n_short {A : Type} (n : nat) (l : list A) :
  (List.length l <= n)%nat -> last_n n l = l.
Proof.
  intros H. unfold last_n.
  replace (List.length l - n)%nat with 0%nat by lia. reflexivity.
Qed.

Lemma last_skipn {A : Type} (k : nat) (l : list A) (d : A) :
  (k < List.length l)%nat -> last (skipn k l) d = last l d.
Proof.
  revert l. induction k as [|k IH]; intros l H; [reflexivity|].
  destruct l as [|x l]; simpl in H; [lia|].
  cbn [skipn]. rewrite IH by lia.
  destruct l as [|y l]; [simpl in H; lia | reflexivity].
Qed.

Lemma last_n_keeps_newest {A : Type} (n : nat) (l : list A) (x d : A) :
  (0 < n)%nat -> last (last_n n (l ++ [x])) d = x.
Proof.
  intros Hn. unfold last_n.
  rewrite last_skipn by (rewrite List.length_app; simpl; lia).
  apply last_last.
Qed.

(** What [_update_conversation_history] leaves under the conversation it
    was called for. *)
Lemma update_stores_last_twenty (store : history_store)
  (conversation_id timestamp user_message ai_response : string) :
  history_get
    (_update_conversation_history store conversation_id timestamp
       user_message ai_response) conversation_id
  = Some (last_n 20
            (match history_get store conversation_id with
             | Some h => h
             | None => []
             end ++ [history_entry timestamp user_message ai_response])).
Proof.
  unfold _update_conversation_history.
  destruct (history_get store conversation_id) as [h|] eqn:E.
  - rewrite E.
    destruct (20 <? List.length (h ++ [history_entry timestamp user_message ai_response]))%nat eqn:L.
    + now rewrite history_get_set_same.
    + rewrite history_get_set_same. apply Nat.ltb_ge in L.
      now rewrite last_n_short.
  - rewrite history_get_set_same. simpl app.
    cbn [List.length Nat.ltb Nat.leb].
    rewrite history_get_set_same. reflexivity.
Qed.

(** X11: after an exchange is recorded, reading the conversation gives
    the previous entries followed by the new one, cut to the last twenty:
    never more than twenty entries, the new one last, whatever Redis holds. *)
Theorem conversation_history_round_trip (env : Env)
  (redis : option (string -> result (option string))) (store : history_store)
  (conversation_id timestamp user_message ai_response : string)
  (user_id : option string) :
  let entry := history_entry timestamp user_message ai_response in
  let before := match history_get store conversation_id with
                | Some h => h
                | None => []
                end in
  let kept := last_n 20 (before ++ [entry]) in
  _get_conversation_history env redis
    (_update_conversation_history store conversation_id timestamp
       user_message ai_response) conversation_id user_id = VList kept
  /\ (List.length kept <= 20)%nat
  /\ last kept VNone = entry.
Proof.
  intros entry before kept. split; [|split].
  - unfold _get_conversation_history.
    now rewrite update_stores_last_twenty.
  - apply last_n_length.
  - apply last_n_keeps_newest. lia.
Qed.

(** X12: recording an exchange in one conversation leaves the stored
    history of every other conversation as it was. *)
Theorem update_leaves_other_conversations (store : history_store)
  (conversation_id other timestamp user_message ai_response : string) :
  other <> conversation_id ->
  history_get
    (_update_conversation_history store conversation_id timestamp
       user_message ai_response) other
  = history_get store other.
Proof.
  intros Hne. unfold _update_conversation_history.
  destruct (history_get store conversation_id) as [h|] eqn:E.
  - rewrite E.
    destruct (20 <? _)%nat; rewrite !history_get_set_other by exact Hne;
      reflexivity.
  - rewrite history_get_set_same.
    destruct (20 <? _)%nat; rewrite !history_get_set_other by exact Hne;
      reflexivity.
Qed.

Lemma update_leaves_other_conversations_witness :
  history_get
    (_update_conversation_history [("c2", [VStr "earlier"])] "c1"
       "2024-01-01T00:00:00" "hello" "hi") "c2"
  = history_get [("c2", [VStr "earlier"])] "c2".
Proof.
  apply update_leaves_other_conversations. intros H. discriminate H.
Defined.

(** What the model answers cannot be used when the itinerary carries no
    total: parsing then raises on every text. *)
Lemma parse_raises_without_budget (env : Env) (text : string) :
  exists e, _parse_and_validate_response env text [("budget", VNone)] = Raise e.
Proof.
  unfold _parse_and_validate_response.
  destruct (json_loads env (json_span text)) as [parsed|].
  - destruct (fill_required required_fields parsed) as [data|e]; cbn [bind];
      [|now eexists].
    destruct (py_get data "total_estimated_cost" (VInt 0)) as [total|e];
      cbn [bind]; [|now eexists].
    change (dict_getitem [("budget", VNone)] "budget") with (Ok VNone).
    cbn [bind].
    assert (H : py_gt total VNone = Raise TypeError).
    { unfold py_gt. destruct total; reflexivity. }
    rewrite H. cbn [bind]. now eexists.
  - unfold _create_fallback_itinerary.
    change (dict_getitem [("budget", VNone)] "budget") with (Ok VNone).
    cbn [bind]. unfold py_div. simpl. now eexists.
Qed.

(** X13: an itinerary without a [total_estimated_cost] (or with [None]
    there) comes back from [optimize_itinerary] exactly as it went in,
    whatever the model answers. *)
Theorem optimize_without_total_returns_input (env : Env)
  (dumps : value -> result string) (prompt_of : string -> string -> string)
  (itinerary optimization_params : dict) :
  dict_get_default itinerary "total_estimated_cost" VNone = VNone ->
  optimize_itinerary env dumps prompt_of itinerary optimization_params
  = VDict itinerary.
Proof.
  intros Hnone. unfold optimize_itinerary. rewrite Hnone.
  destruct (dumps (VDict itinerary)) as [current|]; cbn [bind]; [|reflexivity].
  destruct (dumps (VDict optimization_params)) as [requirements|]; cbn [bind];
    [|reflexivity].
  destruct (generate_content env (prompt_of current requirements)) as [text|];
    cbn [bind]; [|reflexivity].
  destruct (parse_raises_without_budget env text) as [e He].
  rewrite He. reflexivity.
Qed.

Lemma optimize_without_total_returns_input_witness :
  optimize_itinerary Props.sample_env (fun _ => Ok "{}")
    (fun current requirements => current ++ requirements)
    [("destination", VStr "Goa")] [("type", VStr "cost")]
  = VDict [("destination", VStr "Goa")].
Proof.
  apply optimize_without_total_returns_input. reflexivity.
Defined.

End ConversationFacts.

(* ------------------------------------------------------------------ *)
(** ** Maps helpers *)

Module MapsFacts.
Import MapsHelpers Measures.

Lemma substring_length_le (n : nat) (s : string) :
  (String.length (String.substring 0 n s) <= n)%nat.
Proof.
  revert s. induction n as [|n IH]; intros [|a s]; simpl; try lia.
  specialize (IH s). lia.
Qed.

Lemma process_review_textual (review : dict) :
  textual_review review ->
  exists r text, process_review review = Ok r
                 /\ py_get r "text" VNone = Ok text
                 /\ sized_at_most 500 text.
Proof.
  unfold textual_review, process_review, dict_get_default.
  destruct (dict_get review "text") as [[]|]; intros H; try contradiction;
    cbn [slice_to bind]; eexists _, _;
    (split; [reflexivity | split; [reflexivity | apply substring_length_le]]).
Qed.

(** X14: when the first five reviews carry a string as text (or none),
    [_process_reviews] returns one entry for each of them, five at most,
    and no text is longer than 500 characters. *)
Theorem process_reviews_bounded (reviews : list dict) :
  Forall textual_review (firstn 5 reviews) ->
  exists processed,
    _process_reviews reviews = Ok processed
    /\ List.length processed = Nat.min 5 (List.length reviews)
    /\ Forall (fun r => exists text, py_get r "text" VNone = Ok text
                                     /\ sized_at_most 500 text) processed.
Proof.
  unfold _process_reviews. rewrite <- (List.length_firstn 5 reviews).
  induction (firstn 5 reviews) as [|review rest IH]; intros H.
  - exists []. repeat split. constructor.
  - inversion H as [|? ? Hreview Hrest]; subst.
    destruct (process_review_textual review Hreview) as (r & text & Hr & Ht & Hs).
    destruct (IH Hrest) as (processed & Hp & Hlen & Hall).
    exists (r :: processed). cbn [map_result]. rewrite Hr. cbn [bind].
    rewrite Hp. cbn [bind]. repeat split.
    + simpl. now rewrite Hlen.
    + constructor; [now exists text | exact Hall].
Qed.

Lemma process_reviews_bounded_witness :
  exists processed,
    _process_reviews [ [("author_name", VStr "A"); ("text", VStr "Great")];
                       [("rating", VInt 4)] ] = Ok processed
    /\ List.length processed = Nat.min 5 2
    /\ Forall (fun r => exists text, py_get r "text" VNone = Ok text
                                     /\ sized_at_most 500 text) processed.
Proof.
  apply (process_reviews_bounded
           [ [("author_name", VStr "A"); ("text", VStr "Great")];
             [("rating", VInt 4)] ]).
  simpl. repeat constructor.
Defined.

(** X15: [_extract_photo_references] returns at most five references, and
    each of them is the [photo_reference] stored in one of the first five
    photos: the empty default is never used. *)
Theorem photo_references_come_from_first_five (photos : list dict) :
  (List.length (_extract_photo_references photos) <= 5)%nat
  /\ Forall (fun r => exists photo,
                 In photo (firstn 5 photos)
                 /\ dict_get photo "photo_reference" = Some r)
            (_extract_photo_references photos).
Proof.
  unfold _extract_photo_references. split.
  - rewrite List.length_map.
    pose proof (List.filter_length_le
                  (fun photo => dict_has photo "photo_reference")
                  (firstn 5 photos)) as H1.
    pose proof (List.length_firstn 5 photos) as H2. lia.
  - apply Forall_forall. intros r Hin.
    apply in_map_iff in Hin. destruct Hin as (photo & Hr & Hin).
    apply filter_In in Hin. destruct Hin as [Hin Hhas].
    exists photo. split; [exact Hin|].
    unfold dict_has in Hhas. unfold dict_get_default in Hr.
    destruct (dict_get photo "photo_reference"); [now subst | discriminate].
Qed.

Lemma some_restriction_matches_iff (lower : string -> string)
  (haystack : string) (restrictions : list string) :
  some_restriction_matches lower haystack restrictions = true
  <-> exists r, In r restrictions /\ str_contains (lower r) haystack = true.
Proof.
  induction restrictions as [|r rest IH]; simpl.
  - split; [discriminate | intros (r & [] & _)].
  - destruct (str_contains (lower r) haystack) eqn:E.
    + split; [intros _; exists r; auto | reflexivity].
    + rewrite IH. split.
      * intros (r' & Hin & Hr'). exists r'. auto.
      * intros (r' & [Heq|Hin] & Hr'); [subst; congruence | exists r'; auto].
Qed.

(** X16: a restaurant passes [_check_dietary_compatibility] exactly when
    no restriction is given or at least one of the restrictions, in lower
    case, occurs in the lower-cased types joined by spaces: one match is
    enough, not all. *)
Theorem dietary_check_needs_one_match (lower : string -> string)
  (types : list string) (dietary_restrictions : option (list string)) :
  _check_dietary_compatibility lower types dietary_restrictions = true
  <-> dietary_restrictions = None
      \/ dietary_restrictions = Some []
      \/ exists restrictions r,
           dietary_restrictions = Some restrictions
           /\ In r restrictions
           /\ str_contains (lower r) (lower (String.concat " " types)) = true.
Proof.
  unfold _check_dietary_compatibility.
  destruct dietary_restrictions as [[|r0 rest]|].
  - split; [auto | reflexivity].
  - rewrite some_restriction_matches_iff. split.
    + intros (r & Hin & Hr). right. right. exists (r0 :: rest), r. auto.
    + intros [H|[H|(restrictions & r & Heq & Hin & Hr)]]; try discriminate.
      injection Heq as <-. exists r. auto.
  - split; [auto | reflexivity].
Qed.

Lemma dict_keys_set (d : dict) (k : string) (v : value) (allowed : list string) :
  In k allowed ->
  Forall (fun k' => In k' allowed) (dict_keys d) ->
  Forall (fun k' => In k' allowed) (dict_keys (dict_set d k v)).
Proof.
  intros Hk. unfold dict_keys.
  induction d as [|[k0 v0] d IH]; simpl; intros H.
  - constructor; [exact Hk | constructor].
  - inversion H; subst.
    destruct (String.eqb k k0); simpl; constructor; auto.
Qed.

Lemma record_component_keys (processed processed' component : dict) :
  record_component processed component = Ok processed' ->
  Forall (fun k => In k address_keys) (dict_keys processed) ->
  Forall (fun k => In k address_keys) (dict_keys processed').
Proof.
  unfold record_component. intros H Hkeys.
  repeat match type of H with
  | (bind ?m _) = Ok _ =>
      destruct m as [[]|] eqn:?; cbn [bind] in H; try discriminate H
  | Ok _ = Ok _ => injection H as <-
  end; try exact Hkeys;
  apply dict_keys_set; try exact Hkeys; simpl; auto.
Qed.

(** X17: whatever components Google returns, the dictionary built by
    [_process_address_components] has no key other than [country],
    [state], [city] and [postal_code]. *)
Theorem address_components_keys (components : list dict) (processed : dict) :
  _process_address_components components = Ok processed ->
  Forall (fun k => In k address_keys) (dict_keys processed).
Proof.
  unfold _process_address_components.
  assert (G : forall start,
             Forall (fun k => In k address_keys) (dict_keys start) ->
             record_components start components = Ok processed ->
             Forall (fun k => In k address_keys) (dict_keys processed)).
  { induction components as [|component rest IH]; intros start Hstart H.
    - simpl in H. injection H as <-. exact Hstart.
    - cbn [record_components] in H.
      destruct (record_component start component) as [start'|] eqn:E;
        cbn [bind] in H; [|discriminate H].
      apply (IH start'); [|exact H].
      exact (record_component_keys _ _ _ E Hstart). }
  apply G. constructor.
Qed.

Lemma address_components_keys_witness :
  Forall (fun k => In k address_keys)
    (dict_keys [("city", VStr "Panaji"); ("country", VStr "India")]).
Proof.
  apply (address_components_keys
           [ [("types", VList [VStr "locality"; VStr "political"]);
              ("long_name", VStr "Panaji")];
             [("types", VList [VStr "route"]); ("long_name", VStr "MG Road")];
             [("types", VList [VStr "country"]); ("long_name", VStr "India")] ]).
  reflexivity.
Defined.

Lemma flat_map_constant_length {A B : Type} (f : A -> list B) (n : nat)
  (l : list A) :
  (forall x, List.length (f x) = n) ->
  List.length (flat_map f l) = (List.length l * n)%nat.
Proof.
  intros H. induction l as [|x l IH]; simpl; [reflexivity|].
  rewrite List.length_app, H, IH. reflexivity.
Qed.

(** X18: the mock distance matrix has one result for every pair of an
    origin and a destination, each five kilometres and fifteen minutes
    apart. *)
Theorem mock_distance_matrix_is_full (origins destinations : list value) :
  exists results,
    py_get (_get_mock_distance_matrix origins destinations) "results" VNone
      = Ok (VList results)
    /\ List.length results
       = (List.length origins * List.length destinations)%nat
    /\ Forall (fun r =>
                 py_get r "distance" VNone
                   = Ok (VDict [("text", VStr "5 km"); ("value", VInt 5000)])
                 /\ py_get r "duration" VNone
                   = Ok (VDict [("text", VStr "15 mins"); ("value", VInt 900)]))
              results.
Proof.
  eexists. split; [reflexivity|]. split.
  - apply flat_map_constant_length. intros x. apply List.length_map.
  - apply Forall_forall. intros r Hin.
    apply in_flat_map in Hin. destruct Hin as (origin & _ & Hin).
    apply in_map_iff in Hin. destruct Hin as (dest & <- & _).
    split; reflexivity.
Qed.

End MapsFacts.

(* ------------------------------------------------------------------ *)
(** ** Transport legs, forecast and summary of an itinerary *)

Module ItineraryFacts.
Import ItineraryService ItineraryMore MapsHelpers Measures.

Lemma transport_leg_is_taxi (get_directions : value -> value -> value)
  (a b : Activity) (leg : value) :
  transport_leg get_directions a b = Ok (Some leg) -> taxi_leg leg.
Proof.
  unfold transport_leg.
  destruct (py_truthy _ && py_truthy _); [|discriminate].
  destruct (py_truthy (get_directions _ _)); [|discriminate].
  destruct (py_get (get_directions _ _) "routes" VNone) as [routes|];
    cbn [bind]; [|discriminate].
  destruct (py_truthy routes); [|discriminate].
  destruct (first_route routes) as [route|]; cbn [bind]; [|discriminate].
  destruct (py_get route "distance" VNone); cbn [bind]; [|discriminate].
  destruct (py_get route "duration" VNone); cbn [bind]; [|discriminate].
  intros H. injection H as <-. split; reflexivity.
Qed.

Lemma transport_from_step (get_directions : nat -> value -> value -> value)
  (i : nat) (a b : Activity) (rest : list Activity) :
  transport_from get_directions i (a :: b :: rest)
  = (leg <- transport_leg (get_directions i) a b ;;
     legs <- transport_from get_directions (S i) (b :: rest) ;;
     Ok (match leg with Some l => l :: legs | None => legs end)).
Proof. reflexivity. Qed.

Lemma transport_from_bounded (get_directions : nat -> value -> value -> value)
  (activities : list Activity) :
  forall i legs,
    transport_from get_directions i activities = Ok legs ->
    (List.length legs <= List.length activities - 1)%nat
    /\ Forall taxi_leg legs.
Proof.
  induction activities as [|a rest IH]; intros i legs H.
  - injection H as <-. split; [simpl; lia | constructor].
  - destruct rest as [|b rest'].
    + injection H as <-. split; [simpl; lia | constructor].
    + rewrite transport_from_step in H.
      destruct (transport_leg (get_directions i) a b) as [leg|] eqn:E;
        cbn [bind] in H; [|discriminate H].
      destruct (transport_from get_directions (S i) (b :: rest')) as [legs'|] eqn:E';
        cbn [bind] in H; [|discriminate H].
      destruct (IH (S i) legs' E') as [Hlen Hall].
      injection H as <-. cbn [List.length] in *.
      destruct leg as [l|].
      * split; [simpl; lia|].
        constructor; [exact (transport_leg_is_taxi _ _ _ _ E) | exact Hall].
      * split; [lia | exact Hall].
Qed.

(** X19: whatever the maps service answers, [_calculate_transport] returns
    at most one leg for each pair of neighbouring activities, and every leg
    is by taxi at the flat estimate of 50. *)
Theorem calculate_transport_bounded
  (get_directions : nat -> value -> value -> value)
  (activities : list Activity) (legs : list value) :
  _calculate_transport get_directions activities = Ok legs ->
  (List.length legs <= List.length activities - 1)%nat
  /\ Forall taxi_leg legs.
Proof.
  apply transport_from_bounded.
Qed.

Lemma calculate_transport_bounded_witness :
  (List.length
     [ VDict [ ("from", VStr "Fort"); ("to", VStr "Beach"); ("mode", VStr "taxi");
               ("distance", VInt 3); ("duration", VNone);
               ("cost_estimate", VInt 50) ] ]
   <= List.length [ Props.sample_activity "Fort" "1 Fort Road";
                    Props.sample_activity "Beach" "2 Beach Road";
                    Props.sample_activity "Market" "" ] - 1)%nat
  /\ Forall taxi_leg
       [ VDict [ ("from", VStr "Fort"); ("to", VStr "Beach"); ("mode", VStr "taxi");
                 ("distance", VInt 3); ("duration", VNone);
                 ("cost_estimate", VInt 50) ] ].
Proof.
  apply (calculate_transport_bounded
           (fun _ _ _ => VDict [("routes", VList [VDict [("distance", VInt 3)]])])).
  reflexivity.
Defined.

Lemma offline_leg (env : Env) (a b : Activity) :
  addressed a -> addressed b ->
  exists leg,
    transport_leg (fun o d => get_directions env None None o d "driving") a b
      = Ok (Some leg)
    /\ py_get leg "distance" VNone = Ok mock_distance.
Proof.
  unfold addressed, transport_leg. intros Ha Hb. rewrite Ha, Hb.
  eexists. split; reflexivity.
Qed.

Lemma offline_transport (env : Env) (activities : list Activity) :
  Forall addressed activities ->
  exists legs,
    _calculate_transport
      (fun _ o d => get_directions env None None o d "driving") activities
      = Ok legs
    /\ List.length legs = (List.length activities - 1)%nat
    /\ Forall (fun leg => py_get leg "distance" VNone = Ok mock_distance) legs.
Proof.
  unfold _calculate_transport. intros H. revert H. generalize 0%nat at 1.
  induction activities as [|a rest IH]; intros i H.
  - exists []. repeat split. constructor.
  - destruct rest as [|b rest'].
    + exists []. repeat split. constructor.
    + inversion H as [|? ? Ha Hrest]; subst.
      inversion Hrest as [|? ? Hb _]; subst.
      destruct (offline_leg env a b Ha Hb) as (leg & Hleg & Hd).
      destruct (IH (S i) Hrest) as (legs & Hlegs & Hlen & Hall).
      exists (leg :: legs). rewrite transport_from_step.
      rewrite Hleg. cbn [bind]. rewrite Hlegs. cbn [bind].
      repeat split.
      * cbn [List.length] in *. lia.
      * constructor; assumption.
Qed.

(** X20: with no Maps client and no cache, a day whose activities all have
    an address gets exactly one leg between each pair of neighbours, every
    one with the mock distance of ten kilometres. *)
Theorem offline_transport_links_all_neighbours (env : Env)
  (activities : list Activity) :
  Forall addressed activities ->
  exists legs,
    _calculate_transport
      (fun _ o d => get_directions env None None o d "driving") activities
      = Ok legs
    /\ List.length legs = (List.length activities - 1)%nat
    /\ Forall (fun leg => py_get leg "distance" VNone = Ok mock_distance) legs.
Proof.
  apply offline_transport.
Qed.

Lemma offline_transport_links_all_neighbours_witness :
  exists legs,
    _calculate_transport
      (fun _ o d => get_directions Props.sample_env None None o d "driving")
      [ Props.sample_activity "Fort" "1 Fort Road";
        Props.sample_activity "Beach" "2 Beach Road";
        Props.sample_activity "Market" "3 Market Road" ]
      = Ok legs
    /\ List.length legs = (3 - 1)%nat
    /\ Forall (fun leg => py_get leg "distance" VNone = Ok mock_distance) legs.
Proof.
  apply (offline_transport_links_all_neighbours Props.sample_env
           [ Props.sample_activity "Fort" "1 Fort Road";
             Props.sample_activity "Beach" "2 Beach Road";
             Props.sample_activity "Market" "3 Market Road" ]).
  repeat constructor.
Defined.

(** X21: with no Maps client and no cache, [_optimize_routes] adds to each
    day one transport entry for every pair of neighbouring activities (none
    to a day with fewer than two activities), when every activity has an
    address. *)
Theorem offline_routes_add_one_leg_per_pair
  (eqb : Activity -> Activity -> bool) (env : Env) (days : list DayItinerary) :
  (forall a, eqb a a = true) ->
  all_addressed days ->
  transport_counts
    (_optimize_routes eqb env
       (_calculate_transport
          (fun _ o d => get_directions env None None o d "driving")) days)
  = map (fun day => (List.length (transport day)
                     + (List.length (activities day) - 1))%nat) days.
Proof.
  intros Hrefl Hall. unfold transport_counts.
  induction days as [|day rest IH]; [reflexivity|].
  inversion Hall as [|? ? Hday Hrest]; subst.
  cbn [_optimize_routes].
  destruct (1 <? List.length (activities day))%nat eqn:L.
  - rewrite RouteFacts.get_optimal_route_keeps_order by exact Hrefl.
    set (day1 := match activities day with
                 | [] => day
                 | _ :: _ => set_activities day (activities day)
                 end).
    assert (Hacts : activities day1 = activities day).
    { unfold day1. destruct (activities day) eqn:E; [exact E|reflexivity]. }
    assert (Htr : transport day1 = transport day).
    { unfold day1. destruct (activities day); reflexivity. }
    rewrite Hacts.
    destruct (offline_transport env (activities day) Hday)
      as (legs & Hlegs & Hlen & _).
    rewrite Hlegs. cbn [map]. rewrite (IH Hrest).
    unfold extend_transport. cbn [transport].
    now rewrite List.length_app, Htr, Hlen.
  - cbn [map]. rewrite (IH Hrest). apply Nat.ltb_ge in L.
    replace (List.length (activities day) - 1)%nat with 0%nat by lia.
    now rewrite Nat.add_0_r.
Qed.

Lemma offline_routes_add_one_leg_per_pair_witness :
  transport_counts
    (_optimize_routes Props.same_name Props.sample_env
       (_calculate_transport
          (fun _ o d => get_directions Props.sample_env None None o d "driving"))
       (daily_itineraries sample_itinerary))
  = [2%nat; 3%nat].
Proof.
  apply (offline_routes_add_one_leg_per_pair Props.same_name Props.sample_env
           (daily_itineraries sample_itinerary)).
  - intros a. apply String.eqb_refl.
  - repeat constructor.
Defined.

Lemma forecast_dates_seq (env : Env) (start : Z) (l : list nat) :
  forecast_dates (map (fun day => forecast_entry env (start + Z.of_nat day)) l)
  = map (fun day => Ok (VStr (date_isoformat env (start + Z.of_nat day)))) l.
Proof.
  unfold forecast_dates. rewrite map_map. reflexivity.
Qed.

(** X22: for a trip whose length in days is counted from its two dates
    (both included), the forecast added by [_add_weather_forecast] has one
    entry per day, starting on the start date and ending on the end
    date. *)
Theorem forecast_spans_the_trip (env : Env) (itinerary : TripItinerary) :
  start_date itinerary <= end_date itinerary ->
  duration_days itinerary = end_date itinerary - start_date itinerary + 1 ->
  exists forecast,
    weather_forecast (_add_weather_forecast env itinerary) = Some forecast
    /\ Z.of_nat (List.length forecast) = duration_days itinerary
    /\ hd_error (forecast_dates forecast)
       = Some (Ok (VStr (date_isoformat env (start_date itinerary))))
    /\ last (forecast_dates forecast) (Raise KeyError)
       = Ok (VStr (date_isoformat env (end_date itinerary))).
Proof.
  intros Hle Hdays. eexists. split; [reflexivity|].
  unfold weather_forecast_for.
  assert (Hn : Z.to_nat (duration_days itinerary)
               = S (Z.to_nat (end_date itinerary - start_date itinerary))).
  { rewrite Hdays. rewrite Z2Nat.inj_add by lia. simpl. lia. }
  split; [|split].
  - rewrite List.length_map, List.length_seq. lia.
  - rewrite forecast_dates_seq, Hn. cbn [seq map hd_error].
    now rewrite Z.add_0_r.
  - rewrite forecast_dates_seq, Hn, seq_S, map_app. cbn [map].
    rewrite last_last. do 3 f_equal. lia.
Qed.

Lemma forecast_spans_the_trip_witness :
  exists forecast,
    weather_forecast (_add_weather_forecast Props.sample_env sample_itinerary)
      = Some forecast
    /\ Z.of_nat (List.length forecast) = duration_days sample_itinerary
    /\ hd_error (forecast_dates forecast)
       = Some (Ok (VStr (date_isoformat Props.sample_env
                           (start_date sample_itinerary))))
    /\ last (forecast_dates forecast) (Raise KeyError)
       = Ok (VStr (date_isoformat Props.sample_env
                     (end_date sample_itinerary))).
Proof.
  apply (forecast_spans_the_trip Props.sample_env sample_itinerary).
  - simpl. lia.
  - reflexivity.
Defined.




End ItineraryFacts.

(* ------------------------------------------------------------------ *)
(** ** Creating and cancelling bookings *)

Module BookingFlowFacts.
Import BookingService BookingFlow Measures.




Lemma process_items_spec (validate : BookingItem_args -> result StoredItem)
  (parse : string -> option Z) (items : list dict) :
  forall processed total w created amount,
    fst (process_items validate parse items processed total w)
      = Ok (created, amount) ->
    exists new,
      created = (processed ++ new)%list
      /\ amount = (total + sum_list (map s_total_price new))%Qc
      /\ Forall2 (fun item_data item =>
                    exists w0, fst (process_item validate parse item_data w0)
                               = Ok item) items new.
Proof.
  induction items as [|item_data rest IH]; intros processed total w created amount.
  - cbn [process_items ret fst]. intros [= <- <-]. exists [].
    rewrite app_nil_r. split; [reflexivity|]. split; [|constructor].
    simpl. ring.
  - cbn [process_items]. unfold bindM.
    destruct (process_item validate parse item_data w) as [r w1] eqn:E.
    destruct r as [item|e]; [|discriminate].
    intros H. apply IH in H. destruct H as (new & Hc & Ha & Hall).
    exists (item :: new). split; [|split].
    + rewrite Hc, <- app_assoc. reflexivity.
    + rewrite Ha. simpl. ring.
    + constructor; [|exact Hall]. exists w. now rewrite E.
Qed.

Lemma create_booking_items (validate : BookingItem_args -> result StoredItem)
  (parse : string -> option Z) (now : nat -> Z)
  (booking_request : BookingRequest) (w : World) (booking : StoredBooking) :
  fst (create_booking validate parse now booking_request w) = Ok booking ->
  s_total_amount booking
    = sum_list (map s_total_price (s_booking_items booking))
  /\ s_status booking = PENDING
  /\ Forall2 (fun item_data item =>
                exists w0, fst (process_item validate parse item_data w0)
                           = Ok item)
             (req_booking_items booking_request) (s_booking_items booking).
Proof.
  unfold create_booking, bindM, ret.
  destruct (uuid4_str w) as [booking_id w1].
  destruct (process_items validate parse (req_booking_items booking_request)
              [] (qz 0) w1) as [r w2] eqn:E.
  destruct r as [[created amount]|e]; cbn [fst]; [|discriminate].
  intros [= <-]. cbn [s_total_amount s_booking_items s_status].
  pose proof (process_items_spec validate parse
                (req_booking_items booking_request) [] (qz 0) w1 created amount) as H.
  rewrite E in H. destruct (H eq_refl) as (new & Hc & Ha & Hall).
  simpl in Hc. subst created. split; [|split; [reflexivity | exact Hall]].
  rewrite Ha. change (qz 0) with 0%Qc. ring.
Qed.

(** X24: whatever [BookingItem] accepts, a booking that [create_booking]
    returns is pending, has one item for each item of the request, and its
    total is the sum of the total prices of its items. *)
Theorem created_booking_total_is_sum_of_items
  (validate : BookingItem_args -> result StoredItem)
  (parse : string -> option Z) (now : nat -> Z)
  (booking_request : BookingRequest) (w : World) (booking : StoredBooking) :
  fst (create_booking validate parse now booking_request w) = Ok booking ->
  s_total_amount booking
    = sum_list (map s_total_price (s_booking_items booking))
  /\ List.length (s_booking_items booking)
     = List.length (req_booking_items booking_request)
  /\ s_status booking = PENDING.
Proof.
  intros H. apply create_booking_items in H. destruct H as (Ht & Hs & Hall).
  split; [exact Ht|]. split; [|exact Hs].
  symmetry. exact (Forall2_length Hall).
Qed.

Lemma created_booking_total_is_sum_of_items_witness :
  exists booking,
    fst (create_booking BookingItem_init sample_parse (fun _ => 0)
           sample_booking_request Props.sample_world) = Ok booking
    /\ s_total_amount booking
       = sum_list (map s_total_price (s_booking_items booking))
    /\ List.length (s_booking_items booking)
       = List.length (req_booking_items sample_booking_request)
    /\ s_status booking = PENDING.
Proof.
  eexists. split; [vm_compute; reflexivity|].
  apply (created_booking_total_is_sum_of_items BookingItem_init sample_parse
           (fun _ => 0) sample_booking_request Props.sample_world).
  vm_compute. reflexivity.
Defined.



Lemma process_item_unknown_type (validate : BookingItem_args -> result StoredItem)
  (parse : string -> option Z) (item_data : dict) (w : World) :
  unknown_type item_data ->
  exists e, fst (process_item validate parse item_data w) = Raise e.
Proof.
  unfold unknown_type, process_item, bindM, ret. intros H.
  destruct (_create_emt_booking item_data w) as [emt_booking w1].
  destruct (uuid4_str w1) as [id w2]. cbn [fst]. unfold item_args.
  destruct (dict_getitem item_data "type") as [type|e]; cbn [bind] in *;
    [|now exists e].
  destruct (BookingType_of type) as [t|e]; cbn [bind] in *;
    [discriminate H | now exists e].
Qed.

Lemma process_items_unknown_type (validate : BookingItem_args -> result StoredItem)
  (parse : string -> option Z) (items : list dict) (bad : dict) :
  In bad items -> unknown_type bad ->
  forall processed total w,
    exists e, fst (process_items validate parse items processed total w) = Raise e.
Proof.
  intros Hin Hbad. induction items as [|item_data rest IH]; [contradiction|].
  intros processed total w. cbn [process_items]. unfold bindM.
  destruct (process_item validate parse item_data w) as [r w1] eqn:E.
  destruct r as [item|e]; [|now exists e].
  destruct Hin as [->|Hin].
  - destruct (process_item_unknown_type validate parse bad w Hbad) as [e He].
    rewrite E in He. discriminate He.
  - apply (IH Hin).
Qed.

(** X26: a request with an item whose [type] is missing or is not one of
    the five booking types is never turned into a booking: [create_booking]
    raises, whatever the other items are. *)
Theorem create_booking_rejects_unknown_type
  (validate : BookingItem_args -> result StoredItem)
  (parse : string -> option Z) (now : nat -> Z)
  (booking_request : BookingRequest) (w : World) (bad : dict) :
  In bad (req_booking_items booking_request) ->
  unknown_type bad ->
  exists e, fst (create_booking validate parse now booking_request w) = Raise e.
Proof.
  intros Hin Hbad. unfold create_booking, bindM, ret.
  destruct (uuid4_str w) as [booking_id w1].
  destruct (process_items_unknown_type validate parse _ bad Hin Hbad [] (qz 0) w1)
    as [e He].
  destruct (process_items validate parse (req_booking_items booking_request)
              [] (qz 0) w1) as [r w2].
  cbn [fst] in *. subst r. now exists e.
Qed.

Lemma create_booking_rejects_unknown_type_witness :
  exists e,
    fst (create_booking BookingItem_init sample_parse (fun _ => 0)
           cruise_booking_request Props.sample_world) = Raise e.
Proof.
  apply (create_booking_rejects_unknown_type BookingItem_init sample_parse
           (fun _ => 0) cruise_booking_request Props.sample_world
           [ ("type", VStr "cruise"); ("name", VStr "Cruise");
             ("date", VStr "2030-01-01T10:00:00"); ("price", VInt 500) ]).
  - left. reflexivity.
  - reflexivity.
Defined.








End BookingFlowFacts.

(* ------------------------------------------------------------------ *)
(** ** Payments *)

Module PaymentFacts.
Import BookingService BookingFlow PaymentService Measures.

(** X30: [process_payment] always returns a response, for the amount,
    currency and method of the request.  It reports a failure exactly when
    a card payment makes the card processor raise, and then without a
    transaction id or a receipt; UPI, net banking and wallet payments
    always succeed. *)
Theorem process_payment_always_answers (intent : result string)
  (message : exn -> string) (now : Z) (payment_request : PaymentRequest)
  (w : World) :
  exists response,
    fst (process_payment intent message now payment_request w) = Ok response
    /\ amount response = pay_amount payment_request
    /\ currency response = pay_currency payment_request
    /\ payment_method response
       = PaymentMethod_value (pay_payment_method payment_request)
    /\ status response
       = (if card_declined intent payment_request then "failed" else "success")
    /\ (card_declined intent payment_request = false
        \/ (transaction_id response = "" /\ receipt_url response = None)).
Proof.
  unfold process_payment, card_declined, bindM, ret.
  destruct (uuid4_str w) as [id w1].
  destruct payment_request as [booking amount currency method card upi url].
  destruct method; try destruct intent as [intent_id|e];
    cbn; eexists; (split; [reflexivity|]);
    (repeat (split; [reflexivity|]));
    first [left; reflexivity | right; split; reflexivity].
Qed.

End PaymentFacts.
